(** * gnome-clipboard-sync: the synchronisation engine of extension.js

    A shallow embedding of the server side ([_processIncoming],
    [_handlePayload]), the reconciliation rule ([_shouldAcceptUpdate]),
    the state store ([_recordState]) and the client side ([_sendMessage])
    of the GNOME Shell extension, together with the properties its
    specification states about them.

    The extension is single-threaded: every handler runs to completion on
    the main loop between two I/O suspension points.  A handler is therefore
    a function from the extension's fields before the call to its result and
    the fields after it.  What the host platform decides (the clock, the
    line read from a socket, the outcome of a write) is an argument of the
    handler; what the JavaScript runtime and GLib provide ([JSON.parse],
    [Number] on strings, the printing of numbers, [GLib.Uri.parse], ...)
    is a variable of the section [Engine].  A function of the extension
    that can throw returns a [Completion]: the value it returns, or the
    message of the error it throws. *)

From Stdlib Require Import ZArith Ascii.
From stdpp Require Import gmap strings list pretty.

Set Warnings "-register-all".
Set Default Proof Using "Type".

(** ** JavaScript values, as [JSON.parse] produces them *)

Module JS.

(** Numbers are integers: the wire format carries integer millisecond
    timestamps, and the code uses numbers only through truthiness, [<],
    [===] and, in one error message, the runtime's conversion to a string,
    which is a parameter below.  [NaN] only arises as a result of
    [Number(...)], whose result is an [option Z] for that reason. *)
Inductive value : Type :=
| Undefined
| Null
| Bool (b : bool)
| Num (n : Z)
| Str (s : string)
| Arr (elems : list value)
| Obj (fields : list (string * value)).

(** [ToBoolean]: what [!v], [v || w] and [if (v)] test. *)
Definition truthy (v : value) : bool :=
  match v with
  | Undefined | Null => false
  | Bool b => b
  | Num n => negb (n =? 0)%Z
  | Str s => negb (String.eqb s "")
  | Arr _ | Obj _ => true
  end.

(** [a || b] *)
Definition or (a b : value) : value := if truthy a then a else b.

(** [typeof v === 'object'] *)
Definition typeof_object (v : value) : bool :=
  match v with
  | Null | Arr _ | Obj _ => true
  | _ => false
  end.

(** [typeof v === 'string'] *)
Definition typeof_string (v : value) : bool :=
  match v with Str _ => true | _ => false end.

Fixpoint assoc (name : string) (fields : list (string * value)) : value :=
  match fields with
  | [] => Undefined
  | (k, v) :: rest => if String.eqb k name then v else assoc name rest
  end.

(** [v.name] for the property names the extension reads ([secret],
    [type], [selection], [timestamp], [node], [text]); none of them is
    inherited from a prototype, so an object answers from its own fields
    and every other value answers [undefined].  ([null.name] throws; the
    extension never evaluates it.) *)
Definition get (v : value) (name : string) : value :=
  match v with
  | Obj fields => assoc name fields
  | _ => Undefined
  end.

(** [v === s] where [s] is a string: strict equality never coerces. *)
Definition eq_str (v : value) (s : string) : bool :=
  match v with
  | Str s' => String.eqb s' s
  | _ => false
  end.

(** [Object.hasOwn(fields, name)] *)
Definition own (name : string) (fields : list (string * value)) : bool :=
  existsb (fun field => String.eqb (fst field) name) fields.

(** [ToString], as a template literal applies it; [None] when it throws a
    [TypeError].  [print] is the runtime's [Number::toString].

    An object goes through [ToPrimitive]: of [toString] and [valueOf] it
    calls the ones that are callable, and throws when neither call gives a
    primitive.  The inherited [valueOf] returns the object itself and the
    inherited [toString] returns ["[object Object]"]; a property that
    [JSON.parse] has created is never callable.  So an object with a
    property [toString] of its own cannot be converted, and any other
    object converts to ["[object Object]"], in whichever order the two
    methods are tried.  An array has only indices of its own, and its
    inherited [toString] is [join], which converts the elements in turn. *)
Fixpoint ToString (print : Z -> string) (v : value) : option string :=
  match v with
  | Undefined => Some "undefined"
  | Null => Some "null"
  | Bool true => Some "true"
  | Bool false => Some "false"
  | Num n => Some (print n)
  | Str s => Some s
  | Arr elems =>
      (fix join (l : list value) : option string :=
         match l with
         | [] => Some ""
         | x :: rest =>
             match (match x with
                    | Undefined | Null => Some ""
                    | _ => ToString print x
                    end) with
             | None => None
             | Some sx =>
                 match rest with
                 | [] => Some sx
                 | _ :: _ =>
                     match join rest with
                     | None => None
                     | Some srest => Some (sx +:+ "," +:+ srest)
                     end
                 end
             end
         end) elems
  | Obj fields => if own "toString" fields then None else Some "[object Object]"
  end.

(** The conversion a [TypeError] comes from: [Number(v)] asks for a
    number, a template literal for a string. *)
Inductive hint : Type := hint_number | hint_string.

(** [s || d] on strings *)
Definition str_or (s d : string) : string :=
  if String.eqb s "" then d else s.

(** [n || d] where [n] is the result of [Number(...)]: [NaN] and [0] are
    falsy. *)
Definition num_or (n : option Z) (d : Z) : Z :=
  match n with
  | Some z => if (z =? 0)%Z then d else z
  | None => d
  end.

(** [Map.prototype.get] on a map whose keys are all strings: a key that
    is not a string is the same value as none of them. *)
Definition Map_get {A} (m : gmap string A) (key : value) : option A :=
  match key with
  | Str k => m !! k
  | _ => None
  end.

(** The line terminator of the wire protocol. *)
Definition newline : string := String (Ascii.ascii_of_nat 10) "".

(** An object literal with the single property [status]. *)
Definition status (s : string) : value := Obj [("status", Str s)].

(** [{ status: 'error', message }] *)
Definition error (message : string) : value :=
  Obj [("status", Str "error"); ("message", Str message)].

End JS.

(** ** St.ClipboardType

    The enumeration of the St toolkit.  Its members are numbers in
    JavaScript; [St_ClipboardType] gives the values St declares
    ([ST_CLIPBOARD_TYPE_PRIMARY] comes first in the C enumeration).  The
    handlers below take the numbering as a variable, so that what is proved
    about them holds for any numbering of the two members. *)

Inductive ClipboardType : Type := PRIMARY | CLIPBOARD.

#[global] Instance ClipboardType_eq_dec : EqDecision ClipboardType.
Proof. solve_decision. Defined.

Definition St_ClipboardType (c : ClipboardType) : Z :=
  match c with
  | PRIMARY => 0
  | CLIPBOARD => 1
  end.

(** [SELECTION_KEYS], in insertion order. *)
Definition SELECTION_KEYS : list (ClipboardType * string) :=
  [(CLIPBOARD, "CLIPBOARD"); (PRIMARY, "PRIMARY")].

(** ** The extension's fields *)

(** The keys of the settings schema the engine reads. *)
Record Settings : Type := {
  shared_secret : string;
  sync_primary : bool;
  listen_port : Z;
  peer_endpoint : string;
}.

(** One entry of [_latestState]: [{ text, timestamp, node }].  The server
    ([_handlePayload]) and the local publisher ([_publishClipboard]) store
    a string, a number that is not [NaN], and the sender's [node] value;
    the record type follows them. *)
Module State.
Record t : Type := {
  text : string;
  timestamp : Z;
  node : JS.value;
}.
End State.

(** [_clipboard] is the host clipboard; what the engine does to it is the
    sequence of its [set_text] calls, latest first. *)
Record Extension : Type := {
  _settings : Settings;
  _nodeId : string;
  _latestState : gmap string State.t;
  _suppressedSelections : gset string;
  _clipboard : list (ClipboardType * string);
}.

Definition set_latestState (this : Extension) (m : gmap string State.t) : Extension :=
  {| _settings := _settings this;
     _nodeId := _nodeId this;
     _latestState := m;
     _suppressedSelections := _suppressedSelections this;
     _clipboard := _clipboard this |}.

Definition set_settings (this : Extension) (s : Settings) : Extension :=
  {| _settings := s;
     _nodeId := _nodeId this;
     _latestState := _latestState this;
     _suppressedSelections := _suppressedSelections this;
     _clipboard := _clipboard this |}.

(** ** Channel names *)

(** [_selectionFromKey]: the loop over [SELECTION_KEYS.entries()]. *)
Fixpoint selectionFromKey_entries (this : Extension)
    (entries : list (ClipboardType * string)) (key : JS.value) : option ClipboardType :=
  match entries with
  | [] => None
  | (selection, name) :: rest =>
      if JS.eq_str key name then
        if bool_decide (selection = PRIMARY) && negb (sync_primary (_settings this))
        then None
        else Some selection
      else selectionFromKey_entries this rest key
  end.

Definition _selectionFromKey (this : Extension) (key : JS.value) : option ClipboardType :=
  selectionFromKey_entries this SELECTION_KEYS key.

(** [SELECTION_KEYS.get(selection)] *)
Fixpoint SELECTION_KEYS_get (entries : list (ClipboardType * string))
    (selection : ClipboardType) : option string :=
  match entries with
  | [] => None
  | (c, name) :: rest =>
      if bool_decide (c = selection) then Some name
      else SELECTION_KEYS_get rest selection
  end.

Definition _selectionKey (selection : ClipboardType) : string :=
  match SELECTION_KEYS_get SELECTION_KEYS selection with
  | Some name => JS.str_or name "CLIPBOARD"
  | None => "CLIPBOARD"
  end.

(** ** Reconciliation and the state store *)

Definition _shouldAcceptUpdate (this : Extension) (selection : ClipboardType)
    (timestamp : Z) (sourceNode : JS.value) (text : string) : bool :=
  let key := _selectionKey selection in
  let current := _latestState this !! key in
  if JS.eq_str sourceNode (_nodeId this) then false
  else match current with
       | None => true
       | Some current =>
           if (timestamp <? State.timestamp current)%Z then false
           else if (timestamp =? State.timestamp current)%Z
                   && String.eqb text (State.text current)
           then false
           else true
       end.

Definition _setClipboardFromRemote (this : Extension) (selection : ClipboardType)
    (text : string) : Extension :=
  let key := _selectionKey selection in
  {| _settings := _settings this;
     _nodeId := _nodeId this;
     _latestState := _latestState this;
     _suppressedSelections := {[ key ]} ∪ _suppressedSelections this;
     _clipboard := (selection, text) :: _clipboard this |}.

Definition _recordState (this : Extension) (selection : ClipboardType)
    (text : string) (timestamp : Z) (node : JS.value) : Extension :=
  let key := _selectionKey selection in
  set_latestState this
    (<[ key := {| State.text := text; State.timestamp := timestamp;
                  State.node := node |} ]>
       (_latestState this)).

(** ** The reconciliation rules of the specification

    Section 4.1 of the specification gives [shouldAccept] as five rules
    evaluated in order; a rule decides only when no earlier rule does.
    [store] is the state store, [channel] the name of the channel. *)

Inductive shouldAccept (store : gmap string State.t) (channel : string)
    (incomingTimestamp : Z) (incomingNode : JS.value) (incomingText : string)
    (localNodeId : string) : bool -> Prop :=
| rule_self_echo :
    incomingNode = JS.Str localNodeId ->
    shouldAccept store channel incomingTimestamp incomingNode incomingText
      localNodeId false
| rule_no_record :
    incomingNode <> JS.Str localNodeId ->
    store !! channel = None ->
    shouldAccept store channel incomingTimestamp incomingNode incomingText
      localNodeId true
| rule_stale current :
    incomingNode <> JS.Str localNodeId ->
    store !! channel = Some current ->
    (incomingTimestamp < State.timestamp current)%Z ->
    shouldAccept store channel incomingTimestamp incomingNode incomingText
      localNodeId false
| rule_duplicate current :
    incomingNode <> JS.Str localNodeId ->
    store !! channel = Some current ->
    ~ (incomingTimestamp < State.timestamp current)%Z ->
    incomingTimestamp = State.timestamp current ->
    incomingText = State.text current ->
    shouldAccept store channel incomingTimestamp incomingNode incomingText
      localNodeId false
| rule_otherwise current :
    incomingNode <> JS.Str localNodeId ->
    store !! channel = Some current ->
    ~ (incomingTimestamp < State.timestamp current)%Z ->
    ~ (incomingTimestamp = State.timestamp current
       /\ incomingText = State.text current) ->
    shouldAccept store channel incomingTimestamp incomingNode incomingText
      localNodeId true.

(** ** What the platform answers *)

(** A call into GLib or Gio either completes or throws an error that
    carries a message. *)
Inductive read_line_result : Type :=
| ReadThrows (message : string)
| ReadLine (line : option string).

(** The outcome of the calls [_processIncoming] makes on one accepted
    connection; [None] means the call completes. *)
Record ConnectionIO : Type := {
  conn_read : read_line_result;
  conn_write : option string;
  conn_close_output : option string;
  conn_close : option string;
}.

(** The outcome of the calls [_sendMessage] makes towards the peer. *)
Record PeerIO : Type := {
  peer_connect : option string;
  peer_write : option string;
  peer_read : read_line_result;
  peer_close_output : option string;
  peer_close : option string;
}.

(** The calls a handler makes on the outside world, in program order. *)
Inductive Call : Type :=
| Log (message : string)
| Connect (host : string) (port : Z)
| WriteAll (bytes : string)
| ReadLineAsync
| CloseOutput
| CloseConnection.

(** [JSON.parse] returns a value or throws a [SyntaxError]. *)
Inductive parse_result : Type :=
| Parsed (v : JS.value)
| SyntaxError (message : string).

(** A parsed [GLib.Uri]: [get_host()] may be [null], [get_port()] is [-1]
    when the URI names no port. *)
Record Uri : Type := {
  get_host : option string;
  get_port : Z;
}.

(** How a call of [_handlePayload] ends: it returns a response, or it
    throws an error that carries a message. *)
Inductive Completion : Type :=
| Return (response : JS.value)
| Throw (message : string).

(** The result of the [try]/[catch] part of [_processIncoming]. *)
Inductive Incoming : Type :=
| Returned (response : JS.value) (this : Extension)
| Caught (message : string) (response : JS.value) (this : Extension).

Definition incoming_response (r : Incoming) : JS.value :=
  match r with
  | Returned response _ => response
  | Caught _ response _ => response
  end.

Definition incoming_extension (r : Incoming) : Extension :=
  match r with
  | Returned _ this => this
  | Caught _ _ this => this
  end.

(** ** A platform and two nodes for the examples

    Stand-ins for the runtime's functions, enough to evaluate the handlers
    on the requests of the specification's scenarios: decimal strings for
    [Number]; JSON texts with integer numbers and the escapes of the quote
    and the backslash for [JSON.parse] and [JSON.stringify]; endpoints of
    the form [tcp://host] and [tcp://host:port] for [GLib.Uri.parse].  The
    properties below are proved for every platform; these functions only
    serve to run the handlers. *)

Module Example.

Definition digit (c : ascii) : option Z :=
  let n := Z.of_nat (nat_of_ascii c) in
  if ((48 <=? n) && (n <=? 57))%Z then Some (n - 48)%Z else None.

Fixpoint digits (s : string) (acc : Z) : option Z :=
  match s with
  | EmptyString => Some acc
  | String c rest =>
      match digit c with
      | Some d => digits rest (10 * acc + d)%Z
      | None => None
      end
  end.

Definition StringToNumber (s : string) : option Z := digits s 0.

(** The decimal digits, which is what the runtime prints for an integer
    below [10^21]. *)
Definition Number_toString (n : Z) : string := pretty n.

(** A message for each of the two conversions. *)
Definition TypeError_message (h : JS.hint) (v : JS.value) : string :=
  match h with
  | JS.hint_number => "can't convert value to number"
  | JS.hint_string => "can't convert value to string"
  end.

Definition TextDecoder_decode (bytes : string) : string := bytes.

Definition double_quote : ascii := ascii_of_nat 34.
Definition backslash : ascii := ascii_of_nat 92.

Definition is_space (c : ascii) : bool :=
  let n := nat_of_ascii c in
  (n =? 32)%nat || (n =? 9)%nat || (n =? 10)%nat || (n =? 13)%nat.

Fixpoint skip_space (s : string) : string :=
  match s with
  | String c rest => if is_space c then skip_space rest else s
  | EmptyString => s
  end.

(** What follows [word] at the head of [s]. *)
Fixpoint strip (word s : string) : option string :=
  match word, s with
  | EmptyString, _ => Some s
  | String a word, String b s => if Ascii.eqb a b then strip word s else None
  | String _ _, EmptyString => None
  end.

(** The characters of a string literal after its opening quote, and what
    follows its closing quote. *)
Fixpoint string_body (s : string) : option (string * string) :=
  match s with
  | EmptyString => None
  | String c rest =>
      if Ascii.eqb c double_quote then Some (EmptyString, rest)
      else if Ascii.eqb c backslash then
        match rest with
        | String e rest' =>
            if Ascii.eqb e double_quote || Ascii.eqb e backslash then
              match string_body rest' with
              | Some (body, after) => Some (String e body, after)
              | None => None
              end
            else None
        | EmptyString => None
        end
      else
        match string_body rest with
        | Some (body, after) => Some (String c body, after)
        | None => None
        end
  end.

Fixpoint number_body (s : string) (acc : Z) : Z * string :=
  match s with
  | String c rest =>
      match digit c with
      | Some d => number_body rest (10 * acc + d)%Z
      | None => (acc, s)
      end
  | EmptyString => (acc, s)
  end.

Definition number (s : string) : option (Z * string) :=
  match s with
  | String c _ =>
      match digit c with
      | Some _ => Some (number_body s 0)
      | None => None
      end
  | EmptyString => None
  end.

(** [fields] with the member [k] set to [v]: a repeated name keeps its
    place and takes the later value. *)
Fixpoint set_member (k : string) (v : JS.value) (fields : list (string * JS.value))
    : list (string * JS.value) :=
  match fields with
  | [] => [(k, v)]
  | (k', v') :: rest =>
      if String.eqb k' k then (k', v) :: rest else (k', v') :: set_member k v rest
  end.

(** A recursive-descent parser; [fuel] bounds the number of values,
    elements and members read. *)
Fixpoint parse_value (fuel : nat) (s : string) {struct fuel}
    : option (JS.value * string) :=
  match fuel with
  | O => None
  | S fuel =>
      match skip_space s with
      | EmptyString => None
      | String c rest as s =>
          if Ascii.eqb c "["%char then
            match skip_space rest with
            | String "]"%char after => Some (JS.Arr [], after)
            | _ => parse_elements fuel rest []
            end
          else if Ascii.eqb c "{"%char then
            match skip_space rest with
            | String "}"%char after => Some (JS.Obj [], after)
            | _ => parse_members fuel rest []
            end
          else if Ascii.eqb c double_quote then
            match string_body rest with
            | Some (body, after) => Some (JS.Str body, after)
            | None => None
            end
          else if Ascii.eqb c "-"%char then
            match number rest with
            | Some (n, after) => Some (JS.Num (- n), after)
            | None => None
            end
          else
            match strip "null" s, strip "true" s, strip "false" s, number s with
            | Some after, _, _, _ => Some (JS.Null, after)
            | _, Some after, _, _ => Some (JS.Bool true, after)
            | _, _, Some after, _ => Some (JS.Bool false, after)
            | _, _, _, Some (n, after) => Some (JS.Num n, after)
            | _, _, _, _ => None
            end
      end
  end
with parse_elements (fuel : nat) (s : string) (acc : list JS.value) {struct fuel}
    : option (JS.value * string) :=
  match fuel with
  | O => None
  | S fuel =>
      match parse_value fuel s with
      | Some (v, after) =>
          match skip_space after with
          | String ","%char after => parse_elements fuel after (acc ++ [v])
          | String "]"%char after => Some (JS.Arr (acc ++ [v]), after)
          | _ => None
          end
      | None => None
      end
  end
with parse_members (fuel : nat) (s : string) (acc : list (string * JS.value))
    {struct fuel} : option (JS.value * string) :=
  match fuel with
  | O => None
  | S fuel =>
      match skip_space s with
      | String q rest =>
          if Ascii.eqb q double_quote then
            match string_body rest with
            | Some (k, after) =>
                match skip_space after with
                | String ":"%char after =>
                    match parse_value fuel after with
                    | Some (v, after) =>
                        match skip_space after with
                        | String ","%char after =>
                            parse_members fuel after (set_member k v acc)
                        | String "}"%char after =>
                            Some (JS.Obj (set_member k v acc), after)
                        | _ => None
                        end
                    | None => None
                    end
                | _ => None
                end
            | None => None
            end
          else None
      | EmptyString => None
      end
  end.

Definition JSON_parse (text : string) : parse_result :=
  match parse_value (S (String.length text)) text with
  | Some (v, after) =>
      match skip_space after with
      | EmptyString => Parsed v
      | String _ _ => SyntaxError "JSON.parse: unexpected character after JSON data"
      end
  | None => SyntaxError "JSON.parse: unexpected character or end of data"
  end.

Fixpoint escape (s : string) : string :=
  match s with
  | EmptyString => EmptyString
  | String c rest =>
      if Ascii.eqb c double_quote || Ascii.eqb c backslash
      then String backslash (String c (escape rest))
      else String c (escape rest)
  end.

Definition quote (s : string) : string :=
  String double_quote (escape s) +:+ String double_quote EmptyString.

Fixpoint JSON_stringify (v : JS.value) : string :=
  match v with
  | JS.Undefined | JS.Null => "null"
  | JS.Bool true => "true"
  | JS.Bool false => "false"
  | JS.Num n => pretty n
  | JS.Str s => quote s
  | JS.Arr elems =>
      "[" +:+
      (fix items (l : list JS.value) : string :=
         match l with
         | [] => EmptyString
         | [x] => JSON_stringify x
         | x :: rest => JSON_stringify x +:+ "," +:+ items rest
         end) elems
      +:+ "]"
  | JS.Obj fields =>
      "{" +:+
      (fix members (l : list (string * JS.value)) : string :=
         match l with
         | [] => EmptyString
         | [(k, x)] => quote k +:+ ":" +:+ JSON_stringify x
         | (k, x) :: rest =>
             quote k +:+ ":" +:+ JSON_stringify x +:+ "," +:+ members rest
         end) fields
      +:+ "}"
  end.

Definition Uri_parse (s : string) : option Uri :=
  if String.prefix "tcp://" s then
    let rest := String.substring 6 (String.length s - 6) s in
    match String.index 0 ":" rest with
    | None => Some {| get_host := Some rest; get_port := -1 |}
    | Some i =>
        match digits (String.substring (S i) (String.length rest - S i) rest) 0 with
        | Some port =>
            Some {| get_host := Some (String.substring 0 i rest); get_port := port |}
        | None => None
        end
    end
  else None.

Definition settings (primary : bool) (endpoint : string) : Settings :=
  {| shared_secret := "s";
     sync_primary := primary;
     listen_port := 7100;
     peer_endpoint := endpoint |}.

(** Node B of the scenarios, with nothing stored yet. *)
Definition node_B (primary : bool) (endpoint : string) : Extension :=
  {| _settings := settings primary endpoint;
     _nodeId := "B";
     _latestState := ∅;
     _suppressedSelections := ∅;
     _clipboard := [] |}.

(** Node B holding what node A pushed in scenario 1. *)
Definition node_B_hello : Extension :=
  {| _settings := settings false "";
     _nodeId := "B";
     _latestState :=
       {[ "CLIPBOARD" := {| State.text := "hello"; State.timestamp := 1000;
                            State.node := JS.Str "A" |} ]};
     _suppressedSelections := {[ "CLIPBOARD" ]};
     _clipboard := [(CLIPBOARD, "hello")] |}.

(** The push of scenario 1. *)
Definition push (selection secret : string) : JS.value :=
  JS.Obj [("type", JS.Str "update");
          ("node", JS.Str "A");
          ("selection", JS.Str selection);
          ("timestamp", JS.Num 1000);
          ("text", JS.Str "hello");
          ("secret", JS.Str secret)].

(** An update that leaves out [type], [timestamp] and [node]. *)
Definition bare_push : JS.value :=
  JS.Obj [("selection", JS.Str "CLIPBOARD");
          ("text", JS.Str "hello");
          ("secret", JS.Str "s")].

(** A later update of the same channel. *)
Definition later_push : JS.value :=
  JS.Obj [("type", JS.Str "update");
          ("node", JS.Str "A");
          ("selection", JS.Str "CLIPBOARD");
          ("timestamp", JS.Num 2000);
          ("text", JS.Str "world");
          ("secret", JS.Str "s")].

Definition pull (selection : string) : JS.value :=
  JS.Obj [("type", JS.Str "pull");
          ("node", JS.Str "C");
          ("selection", JS.Str selection);
          ("secret", JS.Str "s")].

(** A connection on which every call completes and [read] is what the
    read returns. *)
Definition connection (read : read_line_result) : ConnectionIO :=
  {| conn_read := read;
     conn_write := None;
     conn_close_output := None;
     conn_close := None |}.

(** A peer that accepts the connection and the line and answers
    nothing. *)
Definition silent_peer : PeerIO :=
  {| peer_connect := None;
     peer_write := None;
     peer_read := ReadLine None;
     peer_close_output := None;
     peer_close := None |}.

(** Node A of the scenarios, with nothing stored yet. *)
Definition node_A : Extension :=
  {| _settings := settings false "tcp://node-b:7100";
     _nodeId := "A";
     _latestState := ∅;
     _suppressedSelections := ∅;
     _clipboard := [] |}.

(** An update of the channel from a third node, at the timestamp of
    [push] and with another text. *)
Definition rival_push : JS.value :=
  JS.Obj [("type", JS.Str "update");
          ("node", JS.Str "C");
          ("selection", JS.Str "CLIPBOARD");
          ("timestamp", JS.Num 1000);
          ("text", JS.Str "world");
          ("secret", JS.Str "s")].

(** An update whose timestamp is an object that has a [toString] of its
    own, and a request whose type is one. *)
Definition odd_push : JS.value :=
  JS.Obj [("type", JS.Str "update");
          ("selection", JS.Str "CLIPBOARD");
          ("timestamp", JS.Obj [("toString", JS.Num 1)]);
          ("text", JS.Str "hello");
          ("secret", JS.Str "s")].

Definition odd_request : JS.value :=
  JS.Obj [("type", JS.Obj [("toString", JS.Num 1)]);
          ("secret", JS.Str "s")].

(** An update that names no selection. *)
Definition push_nowhere : JS.value :=
  JS.Obj [("type", JS.Str "update");
          ("node", JS.Str "A");
          ("timestamp", JS.Num 1000);
          ("text", JS.Str "hello");
          ("secret", JS.Str "s")].

(** What the host clipboard holds, and a clock for the callbacks. *)
Definition clipboard_content (selection : ClipboardType) : JS.value :=
  match selection with
  | CLIPBOARD => JS.Str "copied"
  | PRIMARY => JS.Str "selected"
  end.

Definition clock (selection : ClipboardType) : Z := 3000.

(** A peer that accepts the connection and the line and answers [line]. *)
Definition answering_peer (line : string) : PeerIO :=
  {| peer_connect := None;
     peer_write := None;
     peer_read := ReadLine (Some line);
     peer_close_output := None;
     peer_close := None |}.

(** [trim] for the blanks of ASCII. *)
Definition String_trim (s : string) : string :=
  String.rev (skip_space (String.rev (skip_space s))).

End Example.

(** ** The handlers *)

Section Engine.

(** The numbering of [St.ClipboardType], the runtime's string-to-number
    conversion ([None] is [NaN]), its number-to-string conversion, the
    message of the [TypeError] it throws when it cannot convert a value,
    [TextDecoder.prototype.decode], [JSON.parse], [JSON.stringify] and
    [GLib.Uri.parse] ([None] when it throws). *)
Variable ClipboardType_value : ClipboardType -> Z.
Variable StringToNumber : string -> option Z.
Variable Number_toString : Z -> string.
Variable TypeError_message : JS.hint -> JS.value -> string.
Variable TextDecoder_decode : string -> string.
Variable JSON_parse : string -> parse_result.
Variable JSON_stringify : JS.value -> string.
Variable Uri_parse : string -> option Uri.

(** [Number(v)]: [None] when it throws a [TypeError], [Some None] when it
    returns [NaN].  An object or an array is converted to a primitive
    first, which is the string [ToString] gives (see there), and throws
    when [ToString] does. *)
Definition Number (v : JS.value) : option (option Z) :=
  match v with
  | JS.Undefined => Some None
  | JS.Null => Some (Some 0%Z)
  | JS.Bool b => Some (Some (if b then 1 else 0)%Z)
  | JS.Num n => Some (Some n)
  | JS.Str s => Some (StringToNumber s)
  | JS.Arr _ | JS.Obj _ =>
      match JS.ToString Number_toString v with
      | Some s => Some (StringToNumber s)
      | None => None
      end
  end.

(** [!selection] on the result of [_selectionFromKey]: [null] is falsy, and
    so is the number [0]. *)
Definition not_selection (selection : option ClipboardType) : bool :=
  match selection with
  | None => true
  | Some c => (ClipboardType_value c =? 0)%Z
  end.

(** [if (!selection) return ...] lets through a selection that is neither
    [null] nor the number [0]. *)
Definition checked_selection (selection : option ClipboardType) : option ClipboardType :=
  if not_selection selection then None else selection.

(** [_handlePayload]; [now] is what [Date.now()] returns during the call.
    The result is how the call ends and the extension it leaves.  The two
    conversions, [Number(payload.timestamp)] and the template literal of
    the last line, are the calls that can throw. *)
Definition _handlePayload (now : Z) (this : Extension) (payload : JS.value)
    : Completion * Extension :=
  if negb (JS.truthy payload) || negb (JS.typeof_object payload) then
    (Return (JS.error "Invalid payload"), this)
  else
    let expectedSecret := JS.str_or (shared_secret (_settings this)) "" in
    if negb (JS.eq_str (JS.get payload "secret") expectedSecret) then
      (Return (JS.status "unauthorized"), this)
    else
      let type := JS.or (JS.get payload "type") (JS.Str "update") in
      if JS.eq_str type "update" then
        let selection := _selectionFromKey this (JS.get payload "selection") in
        match checked_selection selection with
        | None => (Return (JS.error "Unknown selection"), this)
        | Some selection =>
            match Number (JS.get payload "timestamp") with
            | None =>
                (Throw (TypeError_message JS.hint_number (JS.get payload "timestamp")),
                 this)
            | Some number =>
                let timestamp := JS.num_or number now in
                let sourceNode := JS.or (JS.get payload "node") (JS.Str "remote") in
                let text := match JS.get payload "text" with
                            | JS.Str s => s
                            | _ => ""
                            end in
                if negb (_shouldAcceptUpdate this selection timestamp sourceNode text) then
                  (Return (JS.status "ignored"), this)
                else
                  let this := _setClipboardFromRemote this selection text in
                  let this := _recordState this selection text timestamp sourceNode in
                  (Return (JS.status "ok"), this)
            end
        end
      else if JS.eq_str type "pull" then
        let state := JS.Map_get (_latestState this)
                       (JS.or (JS.get payload "selection") (JS.Str "CLIPBOARD")) in
        match state with
        | None => (Return (JS.status "empty"), this)
        | Some state =>
            (Return
               (JS.Obj [("status", JS.Str "ok");
                        ("type", JS.Str "update");
                        ("node", JS.Str (_nodeId this));
                        ("selection",
                         JS.or (JS.get payload "selection") (JS.Str "CLIPBOARD"));
                        ("timestamp", JS.Num (State.timestamp state));
                        ("text", JS.Str (State.text state))]),
             this)
        end
      else
        match JS.ToString Number_toString type with
        | Some s => (Return (JS.error ("Unsupported payload type: " +:+ s)), this)
        | None => (Throw (TypeError_message JS.hint_string type), this)
        end.

(** The [try]/[catch] of [_processIncoming]: [response] starts as
    [{ status: 'ignored' }]; an early [return] keeps it, an error thrown by
    the read, by [JSON.parse] or by [_handlePayload] replaces it.  The line
    read is [null] or a byte array (it is handed to [TextDecoder.decode]);
    an array is truthy even when it holds no byte, so [!line] holds for
    [null] only. *)
Definition incoming_try (now : Z) (this : Extension) (read : read_line_result)
    : Incoming :=
  let response := JS.status "ignored" in
  match read with
  | ReadThrows message => Caught message (JS.error message) this
  | ReadLine None => Returned response this
  | ReadLine (Some line) =>
      let payloadText := TextDecoder_decode line in
      match JSON_parse payloadText with
      | SyntaxError message => Caught message (JS.error message) this
      | Parsed payload =>
          match _handlePayload now this payload with
          | (Return response, this) => Returned response this
          | (Throw message, this) => Caught message (JS.error message) this
          end
      end
  end.

(** The [finally] of [_processIncoming]: one reply line, then both
    closes, each failure logged. *)
Definition incoming_finally (io : ConnectionIO) (response : JS.value) : list Call :=
  let reply := JSON_stringify response +:+ JS.newline in
  (match conn_write io with
   | Some message => [WriteAll reply; Log ("Error sending reply: " +:+ message)]
   | None =>
       match conn_close_output io with
       | Some message =>
           [WriteAll reply; CloseOutput; Log ("Error sending reply: " +:+ message)]
       | None => [WriteAll reply; CloseOutput]
       end
   end)
  ++
  (match conn_close io with
   | Some message => [CloseConnection; Log ("Error closing connection: " +:+ message)]
   | None => [CloseConnection]
   end).

Definition _processIncoming (now : Z) (this : Extension) (io : ConnectionIO)
    : list Call * Extension :=
  let r := incoming_try now this (conn_read io) in
  let calls := match r with
               | Caught message _ _ => [Log ("Error reading payload: " +:+ message)]
               | Returned _ _ => []
               end in
  (ReadLineAsync :: calls ++ incoming_finally io (incoming_response r),
   incoming_extension r).

(** [_publishClipboard]: the local change is recorded, and the returned
    payload is handed to [_sendMessage]. *)
Definition _publishClipboard (now : Z) (this : Extension)
    (selection : ClipboardType) (text : string) : JS.value * Extension :=
  let timestamp := now in
  let this := _recordState this selection text timestamp (JS.Str (_nodeId this)) in
  let payload :=
    JS.Obj [("type", JS.Str "update");
            ("node", JS.Str (_nodeId this));
            ("selection", JS.Str (_selectionKey selection));
            ("timestamp", JS.Num timestamp);
            ("text", JS.Str text);
            ("secret", JS.Str (JS.str_or (shared_secret (_settings this)) ""))] in
  (payload, this).

(** [_onOwnerChange] for a signal that names its selection; [content] is
    what [get_text] hands to the callback. *)
Definition _onOwnerChange (now : Z) (this : Extension)
    (selection : ClipboardType) (content : JS.value) : Extension :=
  let key := _selectionKey selection in
  if bool_decide (selection = PRIMARY) && negb (sync_primary (_settings this)) then
    this
  else if bool_decide (key ∈ _suppressedSelections this) then
    {| _settings := _settings this;
       _nodeId := _nodeId this;
       _latestState := _latestState this;
       _suppressedSelections := _suppressedSelections this ∖ {[ key ]};
       _clipboard := _clipboard this |}
  else
    match content with
    | JS.Str text => snd (_publishClipboard now this selection text)
    | _ => this
    end.

(** [_sendMessage]: the value returned and the calls made. *)
Definition _sendMessage (this : Extension) (net : PeerIO) (payload : JS.value)
    (expectResponse : bool) : JS.value * list Call :=
  let endpoint := peer_endpoint (_settings this) in
  if String.eqb endpoint "" then (JS.Null, [])
  else
    match Uri_parse endpoint with
    | None => (JS.Null, [Log ("Invalid peer endpoint: " +:+ endpoint)])
    | Some uri =>
        let host := get_host uri in
        let port := get_port uri in
        let port := if (port =? -1)%Z then listen_port (_settings this) else port in
        match host with
        | None => (JS.Null, [Log ("Incomplete peer endpoint: " +:+ endpoint)])
        | Some host =>
            if String.eqb host "" || (port <=? 0)%Z || (65535 <? port)%Z then
              (JS.Null, [Log ("Incomplete peer endpoint: " +:+ endpoint)])
            else
              let failed message := Log ("Connection to peer failed: " +:+ message) in
              let message := JSON_stringify payload +:+ JS.newline in
              match peer_connect net with
              | Some e => (JS.Null, [Connect host port; failed e])
              | None =>
                  match peer_write net with
                  | Some e => (JS.Null, [Connect host port; WriteAll message; failed e])
                  | None =>
                      let sent := [Connect host port; WriteAll message] in
                      let finish (response : JS.value) (calls : list Call) :=
                        match peer_close_output net with
                        | Some e => (JS.Null, calls ++ [CloseOutput; failed e])
                        | None =>
                            match peer_close net with
                            | Some e =>
                                (JS.Null, calls ++ [CloseOutput; CloseConnection; failed e])
                            | None =>
                                (response, calls ++ [CloseOutput; CloseConnection])
                            end
                        end in
                      if expectResponse then
                        match peer_read net with
                        | ReadThrows e => (JS.Null, sent ++ [ReadLineAsync; failed e])
                        | ReadLine None => finish JS.Null (sent ++ [ReadLineAsync])
                        | ReadLine (Some line) =>
                            match JSON_parse (TextDecoder_decode line) with
                            | SyntaxError e => (JS.Null, sent ++ [ReadLineAsync; failed e])
                            | Parsed response =>
                                finish response (sent ++ [ReadLineAsync])
                            end
                        end
                      else finish JS.Null sent
                  end
              end
        end
    end.

(** ** Vocabulary for the properties *)

(** A request is authenticated when its [secret] is the configured
    string. *)
Definition authenticated (this : Extension) (payload : JS.value) : Prop :=
  JS.get payload "secret" = JS.Str (shared_secret (_settings this)).

(** The type a request is dispatched on: [payload.type || 'update']. *)
Definition dispatch_type (payload : JS.value) : JS.value :=
  JS.or (JS.get payload "type") (JS.Str "update").

(** The three values an update is reconciled with.  There is no
    timestamp when [Number(payload.timestamp)] throws. *)
Definition update_timestamp (now : Z) (payload : JS.value) : option Z :=
  match Number (JS.get payload "timestamp") with
  | Some number => Some (JS.num_or number now)
  | None => None
  end.

Definition update_sourceNode (payload : JS.value) : JS.value :=
  JS.or (JS.get payload "node") (JS.Str "remote").

Definition update_text (payload : JS.value) : string :=
  match JS.get payload "text" with
  | JS.Str s => s
  | _ => ""
  end.

(** The channel an update names, when the server knows it. *)
Definition update_selection (this : Extension) (payload : JS.value)
    : option ClipboardType :=
  checked_selection (_selectionFromKey this (JS.get payload "selection")).

(** The channel a pull asks for: [payload.selection || 'CLIPBOARD']. *)
Definition pull_channel (payload : JS.value) : JS.value :=
  JS.or (JS.get payload "selection") (JS.Str "CLIPBOARD").

(** The reply to a pull that finds [state]. *)
Definition pull_reply (this : Extension) (payload : JS.value) (state : State.t)
    : JS.value :=
  JS.Obj [("status", JS.Str "ok");
          ("type", JS.Str "update");
          ("node", JS.Str (_nodeId this));
          ("selection", pull_channel payload);
          ("timestamp", JS.Num (State.timestamp state));
          ("text", JS.Str (State.text state))].

(** The round trip as section 8 of the specification words it: the
    answer to a pull carries the stored record's timestamp, text and
    origin node. *)
Definition pull_returns_record (response : JS.value) (state : State.t) : Prop :=
  JS.get response "timestamp" = JS.Num (State.timestamp state)
  /\ JS.get response "text" = JS.Str (State.text state)
  /\ JS.get response "node" = State.node state.

(** The reconciliation decision and what follows it. *)
Definition reconcile (this : Extension) (selection : ClipboardType)
    (timestamp : Z) (sourceNode : JS.value) (text : string)
    : Completion * Extension :=
  if _shouldAcceptUpdate this selection timestamp sourceNode text then
    (Return (JS.status "ok"),
     _recordState (_setClipboardFromRemote this selection text)
       selection text timestamp sourceNode)
  else (Return (JS.status "ignored"), this).

(** An update for [selection]: the conversion of its timestamp, then the
    reconciliation. *)
Definition reconcile_update (now : Z) (this : Extension) (payload : JS.value)
    (selection : ClipboardType) : Completion * Extension :=
  match update_timestamp now payload with
  | Some timestamp =>
      reconcile this selection timestamp (update_sourceNode payload)
        (update_text payload)
  | None =>
      (Throw (TypeError_message JS.hint_number (JS.get payload "timestamp")), this)
  end.

(** The response [_processIncoming] answers a parsed request with: what
    [_handlePayload] returns, or the error object its [catch] builds. *)
Definition answer (c : Completion) : JS.value :=
  match c with
  | Return response => response
  | Throw message => JS.error message
  end.

(** The port [_sendMessage] connects to: the URI's own, or [listen-port]
    when the URI names none. *)
Definition destination_port (this : Extension) (uri : Uri) : Z :=
  if (get_port uri =? -1)%Z then listen_port (_settings this) else get_port uri.

(** The peer endpoint is unset, does not parse, or lacks a host or a
    valid port. *)
Inductive endpoint_unusable (this : Extension) : Prop :=
| endpoint_unset :
    peer_endpoint (_settings this) = "" ->
    endpoint_unusable this
| endpoint_unparsable :
    Uri_parse (peer_endpoint (_settings this)) = None ->
    endpoint_unusable this
| endpoint_without_host uri :
    Uri_parse (peer_endpoint (_settings this)) = Some uri ->
    get_host uri = None \/ get_host uri = Some "" ->
    endpoint_unusable this
| endpoint_without_valid_port uri :
    Uri_parse (peer_endpoint (_settings this)) = Some uri ->
    (destination_port this uri <= 0 \/ 65535 < destination_port this uri)%Z ->
    endpoint_unusable this.

(** The server handling a sequence of requests, each at its own clock
    reading. *)
Fixpoint serve (this : Extension) (requests : list (Z * JS.value)) : Extension :=
  match requests with
  | [] => this
  | (now, payload) :: rest => serve (snd (_handlePayload now this payload)) rest
  end.

(** ** The remaining handlers *)

(** [this._suppressedSelections.delete(key)] *)
Definition delete_suppressed (this : Extension) (key : string) : Extension :=
  {| _settings := _settings this;
     _nodeId := _nodeId this;
     _latestState := _latestState this;
     _suppressedSelections := _suppressedSelections this ∖ {[ key ]};
     _clipboard := _clipboard this |}.

Definition set_nodeId (this : Extension) (id : string) : Extension :=
  {| _settings := _settings this;
     _nodeId := id;
     _latestState := _latestState this;
     _suppressedSelections := _suppressedSelections this;
     _clipboard := _clipboard this |}.

(** The callback [_checkLocalClipboard] hands to [get_text] for one
    selection; [observed] is [_observedText], [content] what [get_text]
    delivers and [now] the clock when the callback runs.  The result is
    the payload handed to [_sendMessage], if any, the extension and
    [_observedText] afterwards. *)
Definition checkLocalClipboard_callback (now : Z) (this : Extension)
    (observed : gmap string string) (selection : ClipboardType)
    (content : JS.value) : option JS.value * Extension * gmap string string :=
  let key := _selectionKey selection in
  match content with
  | JS.Str text =>
      if bool_decide (key ∈ _suppressedSelections this) then
        (None, delete_suppressed this key, <[ key := text ]> observed)
      else if bool_decide (observed !! key = Some text) then
        (None, this, observed)
      else
        let (payload, this) := _publishClipboard now this selection text in
        (Some payload, this, <[ key := text ]> observed)
  | _ => (None, this, observed)
  end.

(** The selections [_checkLocalClipboard] asks for. *)
Definition checkLocalClipboard_selections (this : Extension) : list ClipboardType :=
  CLIPBOARD :: (if sync_primary (_settings this) then [PRIMARY] else []).

(** The callbacks of one [_checkLocalClipboard], run in the order of the
    requests; [content] and [now] give, per selection, what [get_text]
    delivers and the clock at that callback. *)
Fixpoint checkLocalClipboard_callbacks (now : ClipboardType -> Z)
    (this : Extension) (observed : gmap string string)
    (content : ClipboardType -> JS.value) (selections : list ClipboardType)
    : list JS.value * Extension * gmap string string :=
  match selections with
  | [] => ([], this, observed)
  | selection :: rest =>
      let '(sent, this, observed) :=
        checkLocalClipboard_callback (now selection) this observed selection
          (content selection) in
      let '(more, this, observed) :=
        checkLocalClipboard_callbacks now this observed content rest in
      (match sent with Some payload => payload :: more | None => more end,
       this, observed)
  end.

Definition _checkLocalClipboard (now : ClipboardType -> Z) (this : Extension)
    (observed : gmap string string) (content : ClipboardType -> JS.value)
    : list JS.value * Extension * gmap string string :=
  checkLocalClipboard_callbacks now this observed content
    (checkLocalClipboard_selections this).

(** [_onOwnerChange] with what it publishes.  The signal's [selection] is
    [None] when it is not a number; [_observedText] is only touched on that
    path. *)
Definition onOwnerChange_signal (now : ClipboardType -> Z) (this : Extension)
    (observed : gmap string string) (selection : option ClipboardType)
    (content : ClipboardType -> JS.value)
    : list JS.value * Extension * gmap string string :=
  match selection with
  | None => _checkLocalClipboard now this observed content
  | Some selection =>
      let key := _selectionKey selection in
      if bool_decide (selection = PRIMARY) && negb (sync_primary (_settings this)) then
        ([], this, observed)
      else if bool_decide (key ∈ _suppressedSelections this) then
        ([], delete_suppressed this key, observed)
      else
        match content selection with
        | JS.Str text =>
            let (payload, this) :=
              _publishClipboard (now selection) this selection text in
            ([payload], this, observed)
        | _ => ([], this, observed)
        end
  end.

(** The request [_pollRemote] sends. *)
Definition pollRemote_payload (now : Z) (this : Extension) : JS.value :=
  JS.Obj [("type", JS.Str "pull");
          ("node", JS.Str (_nodeId this));
          ("selection", JS.Str "CLIPBOARD");
          ("timestamp", JS.Num now);
          ("secret", JS.Str (JS.str_or (shared_secret (_settings this)) ""))].

(** What [_pollRemote] does with the reply.  It passes [response.timestamp]
    and [response.text] on as they are; the model follows it for a reply
    whose timestamp is a number and whose text is a string (what
    [_handlePayload] answers a pull with), and stops at [Untyped_reply] for
    a reply that would store something else than a [State.t]. *)
Inductive Resumed : Type :=
| Resumed_with (this : Extension)
| Untyped_reply.

Definition pollRemote_resume (this : Extension) (response : JS.value) : Resumed :=
  if JS.truthy response
     && JS.eq_str (JS.get response "status") "ok"
     && JS.eq_str (JS.get response "type") "update" then
    let selection := _selectionFromKey this (JS.get response "selection") in
    match checked_selection selection with
    | None => Resumed_with this
    | Some selection =>
        match JS.get response "timestamp", JS.get response "text" with
        | JS.Num timestamp, JS.Str text =>
            let node := JS.get response "node" in
            if negb (_shouldAcceptUpdate this selection timestamp node text) then
              Resumed_with this
            else
              let this := _setClipboardFromRemote this selection text in
              let this := _recordState this selection text timestamp node in
              Resumed_with this
        | _, _ => Untyped_reply
        end
    end
  else Resumed_with this.

(** [_pollRemote] when nothing else runs between the request and the
    reply: the calls made and the extension afterwards. *)
Definition _pollRemote (now : Z) (this : Extension) (net : PeerIO)
    : list Call * Resumed :=
  let payload := pollRemote_payload now this in
  let (response, calls) := _sendMessage this net payload true in
  (calls, pollRemote_resume this response).

(** The timers of the extension.  [_pollId] and [_localWatchId] are GLib
    source identifiers, [0] when there is none; [sources] are the GLib
    sources alive, with what they run: [_pollRemote] every so many
    seconds, or [_checkLocalClipboard] every 500 milliseconds.  Both
    callbacks return [GLib.SOURCE_CONTINUE], so a source stays alive until
    [GLib.source_remove] removes it. *)
Inductive Source : Type :=
| PollTimer (seconds : Z)
| LocalWatchTimer.

Record Timers : Type := {
  _pollId : Z;
  _localWatchId : Z;
  sources : gmap Z Source;
}.

(** [_clearPolling]: [GLib.source_remove(this._pollId)] *)
Definition _clearPolling (t : Timers) : Timers :=
  if negb (_pollId t =? 0)%Z then
    {| _pollId := 0;
       _localWatchId := _localWatchId t;
       sources := delete (_pollId t) (sources t) |}
  else t.

(** [_updatePolling]: [interval] is the setting [poll-interval] and [id]
    what [GLib.timeout_add_seconds] returns. *)
Definition _updatePolling (interval : Z) (id : Z) (t : Timers) : Timers :=
  let t := _clearPolling t in
  if (interval <=? 0)%Z then t
  else
    {| _pollId := id;
       _localWatchId := _localWatchId t;
       sources := <[ id := PollTimer interval ]> (sources t) |}.

(** [_startLocalWatch]: [id] is what [GLib.timeout_add] returns. *)
Definition _startLocalWatch (id : Z) (t : Timers) : Timers :=
  if negb (_localWatchId t =? 0)%Z then t
  else
    {| _pollId := _pollId t;
       _localWatchId := id;
       sources := <[ id := LocalWatchTimer ]> (sources t) |}.

Definition _stopLocalWatch (t : Timers) : Timers :=
  if negb (_localWatchId t =? 0)%Z then
    {| _pollId := _pollId t;
       _localWatchId := 0;
       sources := delete (_localWatchId t) (sources t) |}
  else t.

(** The sources alive are the ones the extension holds an identifier
    of. *)
Definition timers_owned (t : Timers) : Prop :=
  (forall id seconds,
     sources t !! id = Some (PollTimer seconds) -> id = _pollId t /\ id <> 0%Z)
  /\ (forall id,
        sources t !! id = Some LocalWatchTimer -> id = _localWatchId t /\ id <> 0%Z)
  /\ (_pollId t <> 0%Z -> exists seconds, sources t !! _pollId t = Some (PollTimer seconds))
  /\ (_localWatchId t <> 0%Z -> sources t !! _localWatchId t = Some LocalWatchTimer).

(** [String.prototype.trim] *)
Variable String_trim : string -> string.

(** [_ensureNodeId]: [node_id] is the stored setting and [uuid] what
    [GLib.uuid_string_random] would return; the result is the extension
    and the setting afterwards. *)
Definition _ensureNodeId (this : Extension) (node_id : string) (uuid : string)
    : Extension * string :=
  let existing := node_id in
  if negb (String.eqb existing "")
     && (0 <? String.length (String_trim existing))%nat then
    (set_nodeId this existing, node_id)
  else
    (set_nodeId this uuid, uuid).

(** ** Properties of the reconciliation rule *)

Lemma eq_str_true (v : JS.value) (s : string) :
  JS.eq_str v s = true <-> v = JS.Str s.
Proof.
  destruct v; simpl; try (split; [discriminate | congruence]).
  rewrite String.eqb_eq. split; congruence.
Qed.

Lemma eq_str_false (v : JS.value) (s : string) :
  JS.eq_str v s = false <-> v <> JS.Str s.
Proof.
  rewrite <- eq_str_true. destruct (JS.eq_str v s); split; congruence.
Qed.

Lemma str_or_empty (s : string) : JS.str_or s "" = s.
Proof.
  unfold JS.str_or. destruct (String.eqb s "") eqn:E; [|reflexivity].
  apply String.eqb_eq in E. congruence.
Qed.

(** C4: [_shouldAcceptUpdate] returns [b] exactly when the five rules of
    the specification, evaluated in order on the channel's current record,
    give [b]: self-echo rejects, no record accepts, an older timestamp
    rejects, the same timestamp with the same text rejects, and everything
    else accepts. *)
Theorem shouldAcceptUpdate_refines_rules (this : Extension)
    (selection : ClipboardType) (timestamp : Z) (sourceNode : JS.value)
    (text : string) (b : bool) :
  shouldAccept (_latestState this) (_selectionKey selection) timestamp
    sourceNode text (_nodeId this) b
  <-> _shouldAcceptUpdate this selection timestamp sourceNode text = b.
Proof.
  unfold _shouldAcceptUpdate. split.
  - intros R. destruct R as [Hn | Hn Hc | c Hn Hc Hlt | c Hn Hc Hlt Ht Hx | c Hn Hc Hlt Hd].
    + apply eq_str_true in Hn. rewrite Hn. reflexivity.
    + apply eq_str_false in Hn. rewrite Hn, Hc. reflexivity.
    + apply eq_str_false in Hn. rewrite Hn, Hc.
      apply Z.ltb_lt in Hlt. rewrite Hlt. reflexivity.
    + apply eq_str_false in Hn. rewrite Hn, Hc.
      apply Z.ltb_nlt in Hlt. rewrite Hlt.
      apply Z.eqb_eq in Ht. apply String.eqb_eq in Hx. rewrite Ht, Hx. reflexivity.
    + apply eq_str_false in Hn. rewrite Hn, Hc.
      apply Z.ltb_nlt in Hlt. rewrite Hlt.
      destruct (timestamp =? State.timestamp c)%Z eqn:Et; [|reflexivity].
      destruct (String.eqb text (State.text c)) eqn:Ex; [|reflexivity].
      apply Z.eqb_eq in Et. apply String.eqb_eq in Ex. exfalso. apply Hd. split; assumption.
  - destruct (JS.eq_str sourceNode (_nodeId this)) eqn:En.
    { intros <-. apply rule_self_echo. apply eq_str_true, En. }
    apply eq_str_false in En.
    destruct (_latestState this !! _selectionKey selection) as [c|] eqn:Ec.
    2:{ intros <-. apply rule_no_record; assumption. }
    destruct (timestamp <? State.timestamp c)%Z eqn:Elt.
    { intros <-. apply Z.ltb_lt in Elt. eapply rule_stale; eassumption. }
    apply Z.ltb_nlt in Elt.
    destruct (timestamp =? State.timestamp c)%Z eqn:Et;
      destruct (String.eqb text (State.text c)) eqn:Ex; simpl; intros <-.
    + apply Z.eqb_eq in Et. apply String.eqb_eq in Ex.
      eapply rule_duplicate; eassumption.
    + apply String.eqb_neq in Ex. eapply rule_otherwise; try eassumption.
      intros [_ Hx]. exact (Ex Hx).
    + apply Z.eqb_neq in Et. eapply rule_otherwise; try eassumption.
      intros [Ht _]. exact (Et Ht).
    + apply Z.eqb_neq in Et. eapply rule_otherwise; try eassumption.
      intros [Ht _]. exact (Et Ht).
Qed.

(** The self-echo invariant: an update from the local node is rejected
    whatever its timestamp and text. *)
Corollary shouldAcceptUpdate_self_echo (this : Extension)
    (selection : ClipboardType) (timestamp : Z) (text : string) :
  _shouldAcceptUpdate this selection timestamp (JS.Str (_nodeId this)) text = false.
Proof.
  unfold _shouldAcceptUpdate. simpl. rewrite String.eqb_refl. reflexivity.
Qed.

(** ** The update path of [_handlePayload] *)

Lemma authenticated_object (this : Extension) (payload : JS.value) :
  authenticated this payload -> exists fields, payload = JS.Obj fields.
Proof.
  unfold authenticated. destruct payload; simpl; try discriminate. eauto.
Qed.

(** How an authenticated request is dispatched. *)
Lemma handlePayload_dispatch (now : Z) (this : Extension) (payload : JS.value) :
  authenticated this payload ->
  _handlePayload now this payload
  = if JS.eq_str (dispatch_type payload) "update" then
      match update_selection this payload with
      | None => (Return (JS.error "Unknown selection"), this)
      | Some selection => reconcile_update now this payload selection
      end
    else if JS.eq_str (dispatch_type payload) "pull" then
      match JS.Map_get (_latestState this) (pull_channel payload) with
      | None => (Return (JS.status "empty"), this)
      | Some state => (Return (pull_reply this payload state), this)
      end
    else
      match JS.ToString Number_toString (dispatch_type payload) with
      | Some s => (Return (JS.error ("Unsupported payload type: " +:+ s)), this)
      | None =>
          (Throw (TypeError_message JS.hint_string (dispatch_type payload)), this)
      end.
Proof.
  intros Ha. destruct (authenticated_object _ _ Ha) as [fields ->].
  unfold authenticated in Ha. unfold _handlePayload.
  cbn [JS.truthy JS.typeof_object negb orb]. rewrite str_or_empty, Ha.
  cbn [JS.eq_str]. rewrite String.eqb_refl. cbn [negb].
  fold (dispatch_type (JS.Obj fields)).
  destruct (JS.eq_str (dispatch_type (JS.Obj fields)) "update"); [|reflexivity].
  fold (update_selection this (JS.Obj fields)).
  destruct (update_selection this (JS.Obj fields)); [|reflexivity].
  unfold reconcile_update, reconcile, update_timestamp, update_sourceNode, update_text.
  destruct (Number _); [|reflexivity].
  destruct (_shouldAcceptUpdate _ _ _ _ _); reflexivity.
Qed.

(** An authenticated request of type update that names a known channel
    has its timestamp converted and is then reconciled with the three
    values above. *)
Lemma handlePayload_update (now : Z) (this : Extension) (payload : JS.value)
    (selection : ClipboardType) :
  authenticated this payload ->
  JS.eq_str (dispatch_type payload) "update" = true ->
  update_selection this payload = Some selection ->
  _handlePayload now this payload = reconcile_update now this payload selection.
Proof.
  intros Ha Ht Hs. rewrite handlePayload_dispatch, Ht, Hs by exact Ha. reflexivity.
Qed.

Lemma handlePayload_update_at (now : Z) (this : Extension) (payload : JS.value)
    (selection : ClipboardType) (timestamp : Z) :
  authenticated this payload ->
  JS.eq_str (dispatch_type payload) "update" = true ->
  update_selection this payload = Some selection ->
  update_timestamp now payload = Some timestamp ->
  _handlePayload now this payload
  = reconcile this selection timestamp (update_sourceNode payload)
      (update_text payload).
Proof.
  intros Ha Ht Hs Hts. rewrite (handlePayload_update now this payload selection Ha Ht Hs).
  unfold reconcile_update. rewrite Hts. reflexivity.
Qed.

(** Every call of [_handlePayload] either leaves the extension as it was
    or is an accepted update. *)
Lemma handlePayload_effect (now : Z) (this : Extension) (payload : JS.value) :
  snd (_handlePayload now this payload) = this
  \/ exists selection timestamp,
       update_selection this payload = Some selection
       /\ update_timestamp now payload = Some timestamp
       /\ _shouldAcceptUpdate this selection timestamp
            (update_sourceNode payload) (update_text payload) = true
       /\ _handlePayload now this payload
          = (Return (JS.status "ok"),
             _recordState
               (_setClipboardFromRemote this selection (update_text payload))
               selection (update_text payload) timestamp
               (update_sourceNode payload)).
Proof.
  unfold _handlePayload, update_timestamp.
  destruct (negb (JS.truthy payload) || negb (JS.typeof_object payload));
    [left; reflexivity|].
  destruct (negb (JS.eq_str _ _)); [left; reflexivity|].
  destruct (JS.eq_str (JS.or _ _) "update").
  - fold (update_selection this payload).
    destruct (update_selection this payload) as [selection|]; [|left; reflexivity].
    destruct (Number (JS.get payload "timestamp")) as [number|]; [|left; reflexivity].
    fold (update_sourceNode payload). fold (update_text payload).
    destruct (_shouldAcceptUpdate _ _ _ _ _) eqn:Hacc; [|left; reflexivity].
    right. exists selection, (JS.num_or number now). simpl. auto.
  - destruct (JS.eq_str _ "pull").
    + destruct (JS.Map_get _ _); left; reflexivity.
    + destruct (JS.ToString _ _); left; reflexivity.
Qed.

(** A call that throws leaves the extension as it was. *)
Lemma handlePayload_throw (now : Z) (this : Extension) (payload : JS.value)
    (message : string) :
  fst (_handlePayload now this payload) = Throw message ->
  snd (_handlePayload now this payload) = this.
Proof.
  intros Hthrow.
  destruct (handlePayload_effect now this payload)
    as [Hsame | (sel & ts & _ & _ & _ & Heq)]; [exact Hsame|].
  rewrite Heq in Hthrow. discriminate.
Qed.

(** An update the reconciliation rule accepts never moves a channel's
    timestamp backwards, and leaves the other channels alone. *)
Lemma recordState_monotone (this : Extension) (selection : ClipboardType)
    (timestamp : Z) (sourceNode : JS.value) (text : string)
    (key : string) (old : State.t) :
  _shouldAcceptUpdate this selection timestamp sourceNode text = true ->
  _latestState this !! key = Some old ->
  exists new,
    _latestState
      (_recordState (_setClipboardFromRemote this selection text)
         selection text timestamp sourceNode) !! key = Some new
    /\ (State.timestamp old <= State.timestamp new)%Z.
Proof.
  intros Hacc Hold. unfold _recordState, set_latestState, _setClipboardFromRemote.
  simpl. destruct (decide (_selectionKey selection = key)) as [<-|Hne].
  - rewrite lookup_insert_eq. eexists. split; [reflexivity|]. simpl.
    unfold _shouldAcceptUpdate in Hacc. rewrite Hold in Hacc.
    destruct (JS.eq_str sourceNode (_nodeId this)); [discriminate|].
    destruct (timestamp <? State.timestamp old)%Z eqn:Hlt; [discriminate|].
    apply Z.ltb_ge in Hlt. exact Hlt.
  - rewrite lookup_insert_ne by exact Hne. exists old. split; [exact Hold|lia].
Qed.

(** Whatever the request, no channel's stored timestamp decreases. *)
Lemma handlePayload_monotone (now : Z) (this : Extension) (payload : JS.value)
    (key : string) (old : State.t) :
  _latestState this !! key = Some old ->
  exists new,
    _latestState (snd (_handlePayload now this payload)) !! key = Some new
    /\ (State.timestamp old <= State.timestamp new)%Z.
Proof.
  intros Hold.
  destruct (handlePayload_effect now this payload)
    as [-> | (sel & ts & _ & _ & Hacc & ->)].
  - exists old. split; [exact Hold | lia].
  - apply recordState_monotone; assumption.
Qed.

(** C10: when the server accepts an update (it answers [{status:"ok"}]
    and records it), every channel that had a record still has one, and
    the timestamp now stored for it is greater than or equal to the one
    stored before. *)
Theorem accepted_update_timestamp_monotone (now : Z) (this this' : Extension)
    (payload : JS.value) (key : string) (old : State.t) :
  _handlePayload now this payload = (Return (JS.status "ok"), this') ->
  _latestState this !! key = Some old ->
  exists new,
    _latestState this' !! key = Some new
    /\ (State.timestamp old <= State.timestamp new)%Z.
Proof.
  intros Hok Hold.
  destruct (handlePayload_monotone now this payload key old Hold) as (new & Hnew & Hle).
  rewrite Hok in Hnew. exists new. split; assumption.
Qed.

(** The same over any sequence of requests. *)
Corollary serve_timestamp_monotone (requests : list (Z * JS.value))
    (this : Extension) (key : string) (old : State.t) :
  _latestState this !! key = Some old ->
  exists new,
    _latestState (serve this requests) !! key = Some new
    /\ (State.timestamp old <= State.timestamp new)%Z.
Proof.
  revert this old. induction requests as [|[now payload] rest IH]; intros this old Hold.
  - exists old. split; [exact Hold | lia].
  - destruct (handlePayload_monotone now this payload key old Hold) as (mid & Hmid & Hle).
    destruct (IH _ _ Hmid) as (new & Hnew & Hle').
    exists new. split; [exact Hnew | lia].
Qed.

(** A request that carries a non-zero numeric timestamp is reconciled
    with it whatever the clock reads. *)
Lemma update_timestamp_carried (now : Z) (payload : JS.value) (timestamp : Z) :
  Number (JS.get payload "timestamp") = Some (Some timestamp) ->
  timestamp <> 0%Z ->
  update_timestamp now payload = Some timestamp.
Proof.
  intros Hn Hz. unfold update_timestamp, JS.num_or. rewrite Hn.
  apply Z.eqb_neq in Hz. rewrite Hz. reflexivity.
Qed.

(** A request without a timestamp, or with one that converts to [NaN] or
    to [0], is reconciled with the clock's reading. *)
Lemma update_timestamp_clock (now : Z) (payload : JS.value) :
  Number (JS.get payload "timestamp") = Some None
  \/ Number (JS.get payload "timestamp") = Some (Some 0%Z) ->
  update_timestamp now payload = Some now.
Proof.
  intros [Hn | Hn]; unfold update_timestamp; rewrite Hn; reflexivity.
Qed.

Lemma shouldAcceptUpdate_after_record (this : Extension)
    (selection : ClipboardType) (timestamp : Z) (sourceNode : JS.value)
    (text : string) :
  _shouldAcceptUpdate
    (_recordState (_setClipboardFromRemote this selection text)
       selection text timestamp sourceNode)
    selection timestamp sourceNode text = false.
Proof.
  unfold _shouldAcceptUpdate, _recordState, set_latestState, _setClipboardFromRemote.
  simpl. rewrite lookup_insert_eq. simpl.
  rewrite Z.ltb_irrefl, Z.eqb_refl, String.eqb_refl.
  destruct (JS.eq_str sourceNode (_nodeId this)); reflexivity.
Qed.

(** C6 (amended): an authenticated update that names a known channel and
    that both handlings reconcile with the same timestamp (it carries a
    timestamp that converts to a number other than [0], or the clock reads
    the same both times) is answered [{status:"ok"}] or
    [{status:"ignored"}] the first time and [{status:"ignored"}] the second
    time, and the second handling leaves the extension, hence the stored
    timestamp and text, exactly as the first left it. *)
Theorem repeated_update_ignored (now1 now2 : Z) (this : Extension)
    (payload : JS.value) (selection : ClipboardType) (timestamp : Z) :
  authenticated this payload ->
  JS.eq_str (dispatch_type payload) "update" = true ->
  update_selection this payload = Some selection ->
  update_timestamp now1 payload = Some timestamp ->
  update_timestamp now2 payload = Some timestamp ->
  let first := _handlePayload now1 this payload in
  let second := _handlePayload now2 (snd first) payload in
  (fst first = Return (JS.status "ok") \/ fst first = Return (JS.status "ignored"))
  /\ fst second = Return (JS.status "ignored")
  /\ snd second = snd first
  /\ _latestState (snd second) !! _selectionKey selection
     = _latestState (snd first) !! _selectionKey selection.
Proof.
  intros Ha Ht Hs Hts1 Hts2 first second.
  assert (Hfirst : first = reconcile this selection timestamp
            (update_sourceNode payload) (update_text payload))
    by (apply handlePayload_update_at; assumption).
  assert (Hsecond : second = (Return (JS.status "ignored"), snd first)).
  { subst second. rewrite Hfirst. unfold reconcile.
    destruct (_shouldAcceptUpdate this selection _ _ _) eqn:Hacc; simpl snd.
    - rewrite (handlePayload_update_at now2 _ payload selection timestamp);
        try assumption.
      unfold reconcile. rewrite shouldAcceptUpdate_after_record. reflexivity.
    - rewrite (handlePayload_update_at now2 _ payload selection timestamp);
        try assumption.
      unfold reconcile. rewrite Hacc. reflexivity. }
  rewrite Hsecond. simpl. repeat split; try reflexivity.
  rewrite Hfirst. unfold reconcile.
  destruct (_shouldAcceptUpdate _ _ _ _ _); simpl; auto.
Qed.

(** C7: for an authenticated update that names a known channel, a missing
    [timestamp] makes the reconciliation decision, and what is recorded
    after it, use the current time; a missing [node] makes them use the
    string ["remote"], when the handler gets as far as the decision: the
    conversion of the timestamp comes first, and when it throws the
    handler throws and the extension stays as it was. *)
Theorem missing_timestamp_and_node_defaulted (now : Z) (this : Extension)
    (payload : JS.value) (selection : ClipboardType) :
  authenticated this payload ->
  JS.eq_str (dispatch_type payload) "update" = true ->
  update_selection this payload = Some selection ->
  (JS.get payload "timestamp" = JS.Undefined ->
   _handlePayload now this payload
   = reconcile this selection now (update_sourceNode payload) (update_text payload))
  /\ (JS.get payload "node" = JS.Undefined ->
      _handlePayload now this payload
      = match update_timestamp now payload with
        | Some timestamp =>
            reconcile this selection timestamp (JS.Str "remote") (update_text payload)
        | None =>
            (Throw (TypeError_message JS.hint_number (JS.get payload "timestamp")),
             this)
        end).
Proof.
  intros Ha Ht Hs.
  rewrite (handlePayload_update now this payload selection Ha Ht Hs).
  unfold reconcile_update. split; intros Hmiss.
  - unfold update_timestamp. rewrite Hmiss. reflexivity.
  - unfold update_sourceNode. rewrite Hmiss. reflexivity.
Qed.

(** C9: an authenticated request whose [type] is missing or falsy is
    handled as an update (unknown channel, or the conversion of the
    timestamp and the reconciliation decision); a request whose [type] is
    present (truthy) and is neither ["update"] nor ["pull"] is answered
    with the unsupported-type error, whose message ends with the type as
    the runtime converts it to a string, and throws when the runtime
    cannot convert it; and the unsupported-type error answers such
    requests only. *)
Theorem missing_type_dispatched_as_update (now : Z) (this : Extension)
    (payload : JS.value) :
  authenticated this payload ->
  let type := JS.get payload "type" in
  (JS.truthy type = false ->
   _handlePayload now this payload
   = match update_selection this payload with
     | None => (Return (JS.error "Unknown selection"), this)
     | Some selection =>
         match update_timestamp now payload with
         | Some timestamp =>
             reconcile this selection timestamp (update_sourceNode payload)
               (update_text payload)
         | None =>
             (Throw (TypeError_message JS.hint_number (JS.get payload "timestamp")),
              this)
         end
     end)
  /\ (JS.truthy type = true -> type <> JS.Str "update" -> type <> JS.Str "pull" ->
      _handlePayload now this payload
      = match JS.ToString Number_toString type with
        | Some s => (Return (JS.error ("Unsupported payload type: " +:+ s)), this)
        | None => (Throw (TypeError_message JS.hint_string type), this)
        end)
  /\ (forall message,
        fst (_handlePayload now this payload) = Return (JS.error message) ->
        String.prefix "Unsupported payload type: " message = true ->
        JS.truthy type = true /\ type <> JS.Str "update" /\ type <> JS.Str "pull"
        /\ exists s,
             JS.ToString Number_toString type = Some s
             /\ message = "Unsupported payload type: " +:+ s).
Proof.
  intros Ha type. rewrite (handlePayload_dispatch now this payload Ha).
  assert (Hfalsy : JS.truthy type = false -> dispatch_type payload = JS.Str "update").
  { intros Hf. unfold dispatch_type, JS.or. fold type. rewrite Hf. reflexivity. }
  assert (Htruthy : JS.truthy type = true -> dispatch_type payload = type).
  { intros Hf. unfold dispatch_type, JS.or. fold type. rewrite Hf. reflexivity. }
  split; [|split].
  - intros Hf. rewrite (Hfalsy Hf). reflexivity.
  - intros Hf Hu Hp. rewrite (Htruthy Hf).
    apply eq_str_false in Hu, Hp. rewrite Hu, Hp. reflexivity.
  - intros message Hm Hpre.
    destruct (JS.eq_str (dispatch_type payload) "update") eqn:Eu.
    { exfalso. destruct (update_selection this payload).
      - unfold reconcile_update, reconcile in Hm.
        destruct (update_timestamp now payload); [|discriminate].
        destruct (_shouldAcceptUpdate _ _ _ _ _); discriminate.
      - simpl in Hm. injection Hm as <-. vm_compute in Hpre. discriminate. }
    destruct (JS.eq_str (dispatch_type payload) "pull") eqn:Ep.
    { exfalso. destruct (JS.Map_get _ _); discriminate. }
    destruct (JS.truthy type) eqn:Hf.
    + rewrite (Htruthy eq_refl) in *. apply eq_str_false in Eu, Ep.
      destruct (JS.ToString Number_toString type) as [s|]; [|discriminate].
      simpl in Hm. injection Hm as <-.
      split; [reflexivity|]. split; [exact Eu|]. split; [exact Ep|].
      exists s. split; reflexivity.
    + rewrite (Hfalsy eq_refl) in Eu. discriminate.
Qed.

(** ** The pull path of [_handlePayload] *)

(** C1 (amended): an authenticated pull for a channel that has a stored
    record is answered with that record's timestamp and text, under the
    requested channel name and with [node] set to the answering node's own
    identifier (not the record's origin node); a pull for a channel without
    a record is answered [{status:"empty"}].  Neither changes the
    extension. *)
Theorem pull_answers_stored_record (now : Z) (this : Extension)
    (payload : JS.value) (channel : string) :
  authenticated this payload ->
  JS.get payload "type" = JS.Str "pull" ->
  pull_channel payload = JS.Str channel ->
  (forall state,
     _latestState this !! channel = Some state ->
     _handlePayload now this payload
     = (Return
          (JS.Obj [("status", JS.Str "ok");
                   ("type", JS.Str "update");
                   ("node", JS.Str (_nodeId this));
                   ("selection", JS.Str channel);
                   ("timestamp", JS.Num (State.timestamp state));
                   ("text", JS.Str (State.text state))]),
        this))
  /\ (_latestState this !! channel = None ->
      _handlePayload now this payload = (Return (JS.status "empty"), this)).
Proof.
  intros Ha Ht Hc. rewrite (handlePayload_dispatch now this payload Ha).
  unfold dispatch_type, pull_reply. rewrite Ht, Hc. simpl.
  split; [intros state Hs | intros Hs]; rewrite Hs; reflexivity.
Qed.

(** ** Requests the server refuses *)

Lemma selectionFromKey_PRIMARY_disabled (this : Extension) :
  sync_primary (_settings this) = false ->
  _selectionFromKey this (JS.Str "PRIMARY") = None.
Proof.
  intros Hoff. unfold _selectionFromKey. simpl. rewrite Hoff. reflexivity.
Qed.

(** While [sync-primary] is off, an authenticated update that names
    [PRIMARY] is refused and changes nothing. *)
Lemma primary_update_refused_when_disabled (now : Z) (this : Extension)
    (payload : JS.value) :
  sync_primary (_settings this) = false ->
  authenticated this payload ->
  JS.eq_str (dispatch_type payload) "update" = true ->
  JS.get payload "selection" = JS.Str "PRIMARY" ->
  _handlePayload now this payload = (Return (JS.error "Unknown selection"), this).
Proof.
  intros Hoff Ha Ht Hs. rewrite (handlePayload_dispatch now this payload Ha), Ht.
  unfold update_selection. rewrite Hs, selectionFromKey_PRIMARY_disabled by exact Hoff.
  reflexivity.
Qed.

(** C5 (amended): a payload whose [secret] is not the configured shared
    secret is answered [{status:"unauthorized"}] when it is an object
    (whatever its [type]), and [{status:"error", message:"Invalid
    payload"}] when it is not an object; in both cases the extension, so
    the state store and the clipboard, is unchanged. *)
Theorem secret_mismatch_refused (now : Z) (this : Extension) (payload : JS.value) :
  ~ authenticated this payload ->
  (JS.truthy payload && JS.typeof_object payload = true ->
   _handlePayload now this payload = (Return (JS.status "unauthorized"), this))
  /\ (JS.truthy payload && JS.typeof_object payload = false ->
      _handlePayload now this payload = (Return (JS.error "Invalid payload"), this)).
Proof.
  intros Hna. unfold _handlePayload. rewrite <- negb_andb.
  split; intros ->; simpl; [|reflexivity].
  rewrite str_or_empty.
  destruct (JS.eq_str _ _) eqn:E; [|reflexivity].
  apply eq_str_true in E. contradiction.
Qed.

(** ** Lines the server cannot read *)

Lemma incoming_finally_closes (io : ConnectionIO) (response : JS.value) :
  exists calls,
    incoming_finally io response
    = WriteAll (JSON_stringify response +:+ JS.newline) :: calls
    /\ CloseConnection ∈ calls.
Proof.
  unfold incoming_finally.
  destruct (conn_write io), (conn_close_output io), (conn_close io);
    simpl; eexists; (split; [reflexivity|]);
    repeat first [apply list_elem_of_here | apply list_elem_of_further].
Qed.

(** C3 (amended): when the connection delivers a line that [JSON.parse]
    rejects (a line of no bytes included, the parser rejecting the empty
    text), the server replies [{status:"error", message}] with the
    parser's message; when the connection delivers no line at all, the
    server replies [{status:"ignored"}].  In both cases the reply is
    written, the connection is closed and the extension is unchanged. *)
Theorem unreadable_line_answered (now : Z) (this : Extension) (io : ConnectionIO) :
  (forall line message,
     conn_read io = ReadLine (Some line) ->
     JSON_parse (TextDecoder_decode line) = SyntaxError message ->
     _processIncoming now this io
     = (ReadLineAsync :: Log ("Error reading payload: " +:+ message)
          :: incoming_finally io (JS.error message),
        this))
  /\ (conn_read io = ReadLine None ->
      _processIncoming now this io
      = (ReadLineAsync :: incoming_finally io (JS.status "ignored"), this))
  /\ (forall response, exists calls,
        incoming_finally io response
        = WriteAll (JSON_stringify response +:+ JS.newline) :: calls
        /\ CloseConnection ∈ calls).
Proof.
  split; [|split].
  - intros line message Hr Hp. unfold _processIncoming, incoming_try.
    rewrite Hr, Hp. reflexivity.
  - intros Hr. unfold _processIncoming, incoming_try. rewrite Hr. reflexivity.
  - apply incoming_finally_closes.
Qed.

(** ** The client's endpoint *)

(** C8: when the peer endpoint is unset, does not parse as a URI, or
    lacks a host or a valid port, [_sendMessage] returns [null] and makes
    no call but a log entry, so no connection is opened; when the URI has
    a host and no port and [listen-port] is a valid port, the connection
    is opened to that host on [listen-port]. *)
Theorem sendMessage_endpoint (this : Extension) (net : PeerIO)
    (payload : JS.value) (expectResponse : bool) :
  (endpoint_unusable this ->
   fst (_sendMessage this net payload expectResponse) = JS.Null
   /\ forall call, call ∈ snd (_sendMessage this net payload expectResponse) ->
                   exists message, call = Log message)
  /\ (forall uri host,
        peer_endpoint (_settings this) <> "" ->
        Uri_parse (peer_endpoint (_settings this)) = Some uri ->
        get_host uri = Some host -> host <> "" ->
        get_port uri = (-1)%Z ->
        (0 < listen_port (_settings this) <= 65535)%Z ->
        exists calls,
          snd (_sendMessage this net payload expectResponse)
          = Connect host (listen_port (_settings this)) :: calls).
Proof.
  split.
  - intros Hbad. unfold _sendMessage.
    destruct (String.eqb (peer_endpoint (_settings this)) "") eqn:Ee.
    { simpl. split; [reflexivity|]. intros call Hc.
      apply elem_of_nil in Hc. contradiction. }
    apply String.eqb_neq in Ee.
    assert (Hlog : forall m : string,
      fst (JS.Null, [Log m]) = JS.Null
      /\ forall call, call ∈ snd (JS.Null, [Log m]) -> exists message, call = Log message).
    { intros m. simpl. split; [reflexivity|]. intros call Hc.
      apply list_elem_of_singleton in Hc. eauto. }
    destruct Hbad as [Hu | Hu | uri Hu Hh | uri Hu Hp]; [contradiction| | |];
      rewrite Hu; [apply Hlog| |].
    + destruct Hh as [-> | ->]; [apply Hlog|]. simpl. apply Hlog.
    + fold (destination_port this uri).
      destruct (get_host uri) as [host|]; [|apply Hlog].
      assert (Hport : (destination_port this uri <=? 0)%Z
                      || (65535 <? destination_port this uri)%Z = true).
      { apply orb_true_iff. rewrite Z.leb_le, Z.ltb_lt. exact Hp. }
      rewrite <- orb_assoc, Hport, orb_true_r. apply Hlog.
  - intros uri host Hset Hu Hh Hne Hp Hl. unfold _sendMessage.
    apply String.eqb_neq in Hset. rewrite Hset, Hu, Hh, Hp. simpl Z.eqb. cbv iota.
    apply String.eqb_neq in Hne. rewrite Hne. simpl orb.
    replace (listen_port (_settings this) <=? 0)%Z with false by (symmetry; apply Z.leb_gt; lia).
    replace (65535 <? listen_port (_settings this))%Z with false by (symmetry; apply Z.ltb_ge; lia).
    simpl orb. cbv iota.
    destruct (peer_connect net); [eexists; reflexivity|].
    destruct (peer_write net); [eexists; reflexivity|].
    destruct expectResponse.
    + destruct (peer_read net) as [e|[line|]]; [eexists; reflexivity| |].
      * destruct (JSON_parse _); [|eexists; reflexivity].
        destruct (peer_close_output net); [eexists; reflexivity|].
        destruct (peer_close net); eexists; reflexivity.
      * destruct (peer_close_output net); [eexists; reflexivity|].
        destruct (peer_close net); eexists; reflexivity.
    + destruct (peer_close_output net); [eexists; reflexivity|].
      destruct (peer_close net); eexists; reflexivity.
Qed.

(** ** Channel names and what a request may touch *)

Lemma selectionFromKey_name (this : Extension) (key : JS.value)
    (selection : ClipboardType) :
  _selectionFromKey this key = Some selection ->
  key = JS.Str (_selectionKey selection).
Proof.
  unfold _selectionFromKey. simpl.
  destruct (JS.eq_str key "CLIPBOARD") eqn:Ec.
  { apply eq_str_true in Ec. simpl. intros [= <-]. exact Ec. }
  destruct (JS.eq_str key "PRIMARY") eqn:Ep; [|discriminate].
  apply eq_str_true in Ep. simpl.
  destruct (negb (sync_primary (_settings this))); [discriminate|].
  intros [= <-]. exact Ep.
Qed.

(** X1: a name [_selectionFromKey] resolves is the name [_selectionKey]
    gives back for the selection, and the name of a selection resolves to
    that selection, except [PRIMARY] while [sync-primary] is off, which
    resolves to nothing. *)
Theorem selection_names_round_trip (this : Extension) :
  (forall key selection,
     _selectionFromKey this key = Some selection ->
     key = JS.Str (_selectionKey selection))
  /\ (forall selection,
        _selectionFromKey this (JS.Str (_selectionKey selection))
        = if bool_decide (selection = PRIMARY)
             && negb (sync_primary (_settings this))
          then None else Some selection).
Proof.
  split; [apply selectionFromKey_name|].
  intros [|]; unfold _selectionFromKey; simpl;
    destruct (sync_primary (_settings this)); reflexivity.
Qed.

(** X2: an authenticated update whose [selection] is neither the string
    ["CLIPBOARD"] nor the string ["PRIMARY"] (a missing selection
    included: an update has no default channel) is refused with
    [Unknown selection] and changes nothing. *)
Theorem unknown_selection_refused (now : Z) (this : Extension)
    (payload : JS.value) :
  authenticated this payload ->
  JS.eq_str (dispatch_type payload) "update" = true ->
  JS.get payload "selection" <> JS.Str "CLIPBOARD" ->
  JS.get payload "selection" <> JS.Str "PRIMARY" ->
  _handlePayload now this payload = (Return (JS.error "Unknown selection"), this).
Proof.
  intros Ha Ht Hc Hp. rewrite (handlePayload_dispatch now this payload Ha), Ht.
  destruct (update_selection this payload) as [selection|] eqn:Hs; [|reflexivity].
  exfalso. unfold update_selection, checked_selection in Hs.
  destruct (not_selection _); [discriminate|].
  apply selectionFromKey_name in Hs. destruct selection; [exact (Hp Hs) | exact (Hc Hs)].
Qed.

(** X3: whatever the request, [_handlePayload] leaves the settings and the
    node identifier alone, changes no channel's record but the one the
    request names in [selection], and changes nothing at all unless the
    request is dispatched as an update. *)
Theorem handlePayload_frame (now : Z) (this : Extension) (payload : JS.value) :
  let this' := snd (_handlePayload now this payload) in
  _settings this' = _settings this
  /\ _nodeId this' = _nodeId this
  /\ (forall key,
        JS.get payload "selection" <> JS.Str key ->
        _latestState this' !! key = _latestState this !! key)
  /\ (JS.eq_str (dispatch_type payload) "update" = false -> this' = this).
Proof.
  intros this'. subst this'.
  destruct (handlePayload_effect now this payload)
    as [-> | (sel & ts & Hs & _ & _ & Heq)].
  { repeat split; reflexivity. }
  rewrite Heq. simpl. repeat split.
  - intros key Hk. rewrite lookup_insert_ne; [reflexivity|].
    intros <-. apply Hk. unfold update_selection, checked_selection in Hs.
    destruct (not_selection _); [discriminate|].
    apply selectionFromKey_name in Hs. exact Hs.
  - intros Hu. exfalso. revert Heq. unfold _handlePayload.
    destruct (negb (JS.truthy payload) || negb (JS.typeof_object payload));
      [discriminate|].
    destruct (negb (JS.eq_str _ _)); [discriminate|].
    fold (dispatch_type payload). rewrite Hu.
    destruct (JS.eq_str (dispatch_type payload) "pull").
    + destruct (JS.Map_get _ _); discriminate.
    + destruct (JS.ToString _ _); discriminate.
Qed.

(** A reply [{status:"ok"}] only comes from an accepted update. *)
Lemma handlePayload_ok_inv (now : Z) (this : Extension) (payload : JS.value) :
  fst (_handlePayload now this payload) = Return (JS.status "ok") ->
  exists selection timestamp,
    update_selection this payload = Some selection
    /\ update_timestamp now payload = Some timestamp
    /\ _shouldAcceptUpdate this selection timestamp
         (update_sourceNode payload) (update_text payload) = true
    /\ snd (_handlePayload now this payload)
       = _recordState
           (_setClipboardFromRemote this selection (update_text payload))
           selection (update_text payload) timestamp
           (update_sourceNode payload).
Proof.
  intros Hok.
  destruct (handlePayload_effect now this payload)
    as [Hsame | (sel & ts & Hs & Hts & Hacc & Heq)].
  - exfalso. revert Hok Hsame. unfold _handlePayload.
    destruct (negb (JS.truthy payload) || negb (JS.typeof_object payload));
      [discriminate|].
    destruct (negb (JS.eq_str _ _)); [discriminate|].
    destruct (JS.eq_str (JS.or _ _) "update").
    + destruct (checked_selection _); [|discriminate].
      destruct (Number _); [|discriminate].
      destruct (negb (_shouldAcceptUpdate _ _ _ _ _)); [discriminate|].
      simpl. intros _ Hrec.
      apply (f_equal _clipboard) in Hrec. simpl in Hrec.
      apply (f_equal length) in Hrec. simpl in Hrec. lia.
    + destruct (JS.eq_str _ "pull").
      * destruct (JS.Map_get _ _); discriminate.
      * destruct (JS.ToString _ _); discriminate.
  - exists sel, ts. rewrite Heq. auto.
Qed.

Lemma update_selection_name (this : Extension) (payload : JS.value)
    (selection : ClipboardType) :
  update_selection this payload = Some selection ->
  JS.get payload "selection" = JS.Str (_selectionKey selection).
Proof.
  unfold update_selection, checked_selection.
  destruct (not_selection _); [discriminate|]. apply selectionFromKey_name.
Qed.

(** X4: the host clipboard is written exactly when the reply is
    [{status:"ok"}]: then the update's text is set on the update's
    selection, the channel is flagged for echo suppression and the
    channel's record is the update, with the timestamp its conversion
    gave; with any other reply, and when the handler throws, the extension
    is as it was. *)
Theorem clipboard_written_iff_ok (now : Z) (this : Extension) (payload : JS.value) :
  let r := _handlePayload now this payload in
  (fst r = Return (JS.status "ok") ->
   exists selection timestamp,
     update_selection this payload = Some selection
     /\ update_timestamp now payload = Some timestamp
     /\ _clipboard (snd r) = (selection, update_text payload) :: _clipboard this
     /\ _selectionKey selection ∈ _suppressedSelections (snd r)
     /\ _latestState (snd r) !! _selectionKey selection
        = Some {| State.text := update_text payload;
                  State.timestamp := timestamp;
                  State.node := update_sourceNode payload |})
  /\ (fst r <> Return (JS.status "ok") -> snd r = this).
Proof.
  intros r. subst r. split.
  - intros Hok.
    destruct (handlePayload_ok_inv now this payload Hok) as (sel & ts & Hs & Hts & _ & ->).
    exists sel, ts. split; [exact Hs|]. split; [exact Hts|]. split; [reflexivity|].
    split; [apply elem_of_union_l, elem_of_singleton; reflexivity|].
    apply lookup_insert_eq.
  - intros Hne.
    destruct (handlePayload_effect now this payload)
      as [Hsame | (sel & ts & _ & _ & _ & Heq)]; [exact Hsame|].
    rewrite Heq in Hne. contradiction.
Qed.

(** ** Last writer wins *)

Lemma authenticated_settings (this this' : Extension) (payload : JS.value) :
  _settings this' = _settings this ->
  authenticated this payload -> authenticated this' payload.
Proof. unfold authenticated. intros ->. auto. Qed.

Lemma update_selection_settings (this this' : Extension) (payload : JS.value) :
  _settings this' = _settings this ->
  update_selection this' payload = update_selection this payload.
Proof.
  intros Hs. unfold update_selection, _selectionFromKey. simpl. rewrite Hs.
  reflexivity.
Qed.

(** X5: when the server resolves the selection an authenticated update
    names (the name is known, the selection is enabled and its value in
    [St.ClipboardType] is not [0]), the selection's channel has no record,
    the update comes from another node and the conversion of its timestamp
    does not throw, the update is accepted whatever number the conversion
    gave and whatever the text, and becomes the channel's record. *)
Theorem first_update_accepted (now : Z) (this : Extension) (payload : JS.value)
    (selection : ClipboardType) (timestamp : Z) :
  authenticated this payload ->
  JS.eq_str (dispatch_type payload) "update" = true ->
  update_selection this payload = Some selection ->
  update_timestamp now payload = Some timestamp ->
  _latestState this !! _selectionKey selection = None ->
  update_sourceNode payload <> JS.Str (_nodeId this) ->
  fst (_handlePayload now this payload) = Return (JS.status "ok")
  /\ _latestState (snd (_handlePayload now this payload)) !! _selectionKey selection
     = Some {| State.text := update_text payload;
               State.timestamp := timestamp;
               State.node := update_sourceNode payload |}.
Proof.
  intros Ha Ht Hs Hts Hnone Hnode.
  rewrite (handlePayload_update_at now this payload selection timestamp Ha Ht Hs Hts).
  unfold reconcile, _shouldAcceptUpdate. apply eq_str_false in Hnode.
  rewrite Hnode, Hnone. simpl. split; [reflexivity | apply lookup_insert_eq].
Qed.

(** X6: after an update has been accepted, a pull that names the same
    selection is answered with that update's timestamp, as its conversion
    gave it, and text. *)
Theorem accepted_update_then_pull (now now' : Z) (this this' : Extension)
    (payload pull : JS.value) :
  _handlePayload now this payload = (Return (JS.status "ok"), this') ->
  authenticated this pull ->
  JS.get pull "type" = JS.Str "pull" ->
  pull_channel pull = JS.get payload "selection" ->
  exists timestamp,
    update_timestamp now payload = Some timestamp
    /\ _handlePayload now' this' pull
       = (Return
            (JS.Obj [("status", JS.Str "ok");
                     ("type", JS.Str "update");
                     ("node", JS.Str (_nodeId this));
                     ("selection", JS.get payload "selection");
                     ("timestamp", JS.Num timestamp);
                     ("text", JS.Str (update_text payload))]),
          this').
Proof.
  intros Hok Ha Ht Hc.
  destruct (handlePayload_ok_inv now this payload) as (sel & ts & Hs & Hts & _ & Heq);
    [rewrite Hok; reflexivity|].
  rewrite Hok in Heq. simpl in Heq. subst this'.
  exists ts. split; [exact Hts|].
  rewrite handlePayload_dispatch by exact Ha.
  unfold dispatch_type, pull_reply, JS.or. rewrite Ht, Hc.
  rewrite (update_selection_name _ _ _ Hs). simpl.
  rewrite lookup_insert_eq. reflexivity.
Qed.

Lemma reconcile_settings (this : Extension) (selection : ClipboardType)
    (timestamp : Z) (sourceNode : JS.value) (text : string) :
  _settings (snd (reconcile this selection timestamp sourceNode text)) = _settings this
  /\ _nodeId (snd (reconcile this selection timestamp sourceNode text)) = _nodeId this.
Proof.
  unfold reconcile. destruct (_shouldAcceptUpdate _ _ _ _ _); split; reflexivity.
Qed.

Lemma handlePayload_settings (now : Z) (this : Extension) (payload : JS.value) :
  _settings (snd (_handlePayload now this payload)) = _settings this
  /\ _nodeId (snd (_handlePayload now this payload)) = _nodeId this.
Proof.
  destruct (handlePayload_effect now this payload)
    as [-> | (sel & ts & _ & _ & _ & ->)]; split; reflexivity.
Qed.

Lemma serve_settings (requests : list (Z * JS.value)) (this : Extension) :
  _settings (serve this requests) = _settings this
  /\ _nodeId (serve this requests) = _nodeId this.
Proof.
  revert this. induction requests as [|[now payload] rest IH]; intros this.
  - split; reflexivity.
  - simpl. destruct (IH (snd (_handlePayload now this payload))) as [-> ->].
    apply handlePayload_settings.
Qed.

Lemma serve_app (before after : list (Z * JS.value)) (this : Extension) :
  serve this (before ++ after) = serve (serve this before) after.
Proof.
  revert this. induction before as [|[now payload] rest IH]; intros this.
  - reflexivity.
  - simpl. apply IH.
Qed.

(** An authenticated update for a known channel is handled the same way
    by any extension with the same settings. *)
Lemma handlePayload_update_later (now : Z) (this this' : Extension)
    (payload : JS.value) (selection : ClipboardType) :
  _settings this' = _settings this ->
  authenticated this payload ->
  JS.eq_str (dispatch_type payload) "update" = true ->
  update_selection this payload = Some selection ->
  _handlePayload now this' payload = reconcile_update now this' payload selection.
Proof.
  intros Hset Ha Ht Hs. apply handlePayload_update.
  - exact (authenticated_settings _ _ _ Hset Ha).
  - exact Ht.
  - rewrite (update_selection_settings _ _ _ Hset). exact Hs.
Qed.

Lemma handlePayload_update_later_at (now : Z) (this this' : Extension)
    (payload : JS.value) (selection : ClipboardType) (timestamp : Z) :
  _settings this' = _settings this ->
  authenticated this payload ->
  JS.eq_str (dispatch_type payload) "update" = true ->
  update_selection this payload = Some selection ->
  update_timestamp now payload = Some timestamp ->
  _handlePayload now this' payload
  = reconcile this' selection timestamp (update_sourceNode payload)
      (update_text payload).
Proof.
  intros Hset Ha Ht Hs Hts.
  rewrite (handlePayload_update_later now this this' payload selection Hset Ha Ht Hs).
  unfold reconcile_update. rewrite Hts. reflexivity.
Qed.

(** An update whose timestamp cannot be converted changes nothing. *)
Lemma handlePayload_update_later_throws (now : Z) (this this' : Extension)
    (payload : JS.value) (selection : ClipboardType) :
  _settings this' = _settings this ->
  authenticated this payload ->
  JS.eq_str (dispatch_type payload) "update" = true ->
  update_selection this payload = Some selection ->
  update_timestamp now payload = None ->
  snd (_handlePayload now this' payload) = this'.
Proof.
  intros Hset Ha Ht Hs Hts.
  rewrite (handlePayload_update_later now this this' payload selection Hset Ha Ht Hs).
  unfold reconcile_update. rewrite Hts. reflexivity.
Qed.

(** X7: once an update has been accepted, an authenticated update for the
    same channel whose timestamp converts (its conversion does not throw)
    to a smaller one than the accepted update's is answered
    [{status:"ignored"}] and changes nothing. *)
Theorem stale_update_ignored (nowA nowB : Z) (this thisA : Extension)
    (payloadA payloadB : JS.value) (selection : ClipboardType)
    (timestampA timestampB : Z) :
  _handlePayload nowA this payloadA = (Return (JS.status "ok"), thisA) ->
  update_selection this payloadA = Some selection ->
  authenticated this payloadB ->
  JS.eq_str (dispatch_type payloadB) "update" = true ->
  update_selection this payloadB = Some selection ->
  update_timestamp nowA payloadA = Some timestampA ->
  update_timestamp nowB payloadB = Some timestampB ->
  (timestampB < timestampA)%Z ->
  _handlePayload nowB thisA payloadB = (Return (JS.status "ignored"), thisA).
Proof.
  intros Hok HsA Ha Ht HsB HtsA HtsB Hlt.
  destruct (handlePayload_ok_inv nowA this payloadA) as (sel & ts & Hs & Hts & _ & Heq);
    [rewrite Hok; reflexivity|].
  rewrite Hok in Heq. simpl in Heq. rewrite HsA in Hs. injection Hs as <-.
  rewrite HtsA in Hts. injection Hts as <-.
  rewrite (handlePayload_update_later_at nowB this thisA payloadB selection timestampB);
    [|subst thisA; reflexivity|exact Ha|exact Ht|exact HsB|exact HtsB].
  unfold reconcile, _shouldAcceptUpdate. subst thisA. simpl.
  rewrite lookup_insert_eq. simpl.
  apply Z.ltb_lt in Hlt. rewrite Hlt.
  destruct (JS.eq_str (update_sourceNode payloadB) (_nodeId this)); reflexivity.
Qed.

Lemma reconcile_at_least (this : Extension) (selection : ClipboardType)
    (timestamp : Z) (sourceNode : JS.value) (text : string) :
  sourceNode <> JS.Str (_nodeId this) ->
  exists r,
    _latestState (snd (reconcile this selection timestamp sourceNode text))
      !! _selectionKey selection = Some r
    /\ (timestamp <= State.timestamp r)%Z.
Proof.
  intros Hnode. apply eq_str_false in Hnode.
  unfold reconcile, _shouldAcceptUpdate. rewrite Hnode.
  destruct (_latestState this !! _selectionKey selection) as [cur|] eqn:Hcur.
  - destruct (timestamp <? State.timestamp cur)%Z eqn:Hlt.
    { simpl. exists cur. apply Z.ltb_lt in Hlt. split; [exact Hcur | lia]. }
    destruct ((timestamp =? State.timestamp cur)%Z
              && String.eqb text (State.text cur)) eqn:Hdup.
    + simpl. exists cur. apply andb_true_iff in Hdup as [Hq _].
      apply Z.eqb_eq in Hq. split; [exact Hcur | lia].
    + simpl. rewrite lookup_insert_eq. eexists. split; [reflexivity|]. simpl. lia.
  - simpl. rewrite lookup_insert_eq. eexists. split; [reflexivity|]. simpl. lia.
Qed.

(** X8: the store ends at least as new as every update it has applied
    the reconciliation rule to: when a sequence of requests contains an
    authenticated update from another node, for a selection the server
    resolves and with a timestamp whose conversion does not throw, the
    channel's record after the whole sequence has a timestamp greater than
    or equal to the one the conversion gave. *)
Theorem serve_at_least_as_new (before after : list (Z * JS.value)) (now : Z)
    (this : Extension) (payload : JS.value) (selection : ClipboardType)
    (timestamp : Z) :
  authenticated this payload ->
  JS.eq_str (dispatch_type payload) "update" = true ->
  update_selection this payload = Some selection ->
  update_timestamp now payload = Some timestamp ->
  update_sourceNode payload <> JS.Str (_nodeId this) ->
  exists r,
    _latestState (serve this (before ++ (now, payload) :: after))
      !! _selectionKey selection = Some r
    /\ (timestamp <= State.timestamp r)%Z.
Proof.
  intros Ha Ht Hs Hts Hnode. rewrite serve_app. simpl.
  destruct (serve_settings before this) as [Hset Hid].
  rewrite (handlePayload_update_later_at now this (serve this before) payload selection
             timestamp Hset Ha Ht Hs Hts).
  destruct (reconcile_at_least (serve this before) selection
              timestamp (update_sourceNode payload)
              (update_text payload)) as (mid & Hmid & Hle).
  { rewrite Hid. exact Hnode. }
  destruct (serve_timestamp_monotone after _ _ _ Hmid) as (r & Hr & Hle').
  exists r. split; [exact Hr | lia].
Qed.

(** ** Arrival order *)

Lemma selectionKey_inj (a b : ClipboardType) :
  _selectionKey a = _selectionKey b -> a = b.
Proof. destruct a, b; simpl; intros H; try reflexivity; discriminate. Qed.

Lemma reconcile_store (this : Extension) (selection : ClipboardType)
    (timestamp : Z) (sourceNode : JS.value) (text : string) :
  _latestState (snd (reconcile this selection timestamp sourceNode text))
  = if _shouldAcceptUpdate this selection timestamp sourceNode text
    then <[ _selectionKey selection :=
              {| State.text := text; State.timestamp := timestamp;
                 State.node := sourceNode |} ]> (_latestState this)
    else _latestState this.
Proof.
  unfold reconcile.
  destruct (_shouldAcceptUpdate this selection timestamp sourceNode text); reflexivity.
Qed.

(** The reconciliation rule reads the node identifier and the channel's
    record, nothing else. *)
Lemma shouldAcceptUpdate_store (this this' : Extension) (selection : ClipboardType)
    (timestamp : Z) (sourceNode : JS.value) (text : string) :
  _nodeId this' = _nodeId this ->
  _latestState this' !! _selectionKey selection
  = _latestState this !! _selectionKey selection ->
  _shouldAcceptUpdate this' selection timestamp sourceNode text
  = _shouldAcceptUpdate this selection timestamp sourceNode text.
Proof. intros Hid Hl. unfold _shouldAcceptUpdate. rewrite Hid, Hl. reflexivity. Qed.

Lemma reconcile_after (this : Extension) (s1 s2 : ClipboardType) (t1 t2 : Z)
    (n1 n2 : JS.value) (x1 x2 : string) :
  _latestState (snd (reconcile (snd (reconcile this s1 t1 n1 x1)) s2 t2 n2 x2))
  = let rec1 := {| State.text := x1; State.timestamp := t1; State.node := n1 |} in
    let rec2 := {| State.text := x2; State.timestamp := t2; State.node := n2 |} in
    let store1 := if _shouldAcceptUpdate this s1 t1 n1 x1
                  then <[ _selectionKey s1 := rec1 ]> (_latestState this)
                  else _latestState this in
    if _shouldAcceptUpdate (set_latestState this store1) s2 t2 n2 x2
    then <[ _selectionKey s2 := rec2 ]> store1 else store1.
Proof.
  rewrite reconcile_store. simpl.
  rewrite (shouldAcceptUpdate_store
             (set_latestState this
                (if _shouldAcceptUpdate this s1 t1 n1 x1
                 then <[ _selectionKey s1 :=
                           {| State.text := x1; State.timestamp := t1;
                              State.node := n1 |} ]> (_latestState this)
                 else _latestState this))
             (snd (reconcile this s1 t1 n1 x1))).
  - rewrite reconcile_store. reflexivity.
  - unfold reconcile. destruct (_shouldAcceptUpdate this s1 t1 n1 x1); reflexivity.
  - rewrite reconcile_store. reflexivity.
Qed.

Ltac store_cases this :=
  repeat (simpl; rewrite ?lookup_insert_eq;
          match goal with
          | |- context [JS.eq_str ?a ?b] => destruct (JS.eq_str a b) eqn:?
          | |- context [_latestState this !! ?k] =>
              destruct (_latestState this !! k) eqn:?
          | |- context [(?a <? ?b)%Z] => destruct (Z.ltb_spec a b)
          | |- context [(?a =? ?b)%Z] => destruct (Z.eqb_spec a b)
          | |- context [String.eqb ?a ?b] => destruct (String.eqb_spec a b)
          end);
  simpl; rewrite ?insert_insert_eq.

Lemma reconcile_commute (this : Extension) (s1 s2 : ClipboardType) (t1 t2 : Z)
    (n1 n2 : JS.value) (x1 x2 : string) :
  s1 <> s2 \/ t1 <> t2 ->
  _latestState (snd (reconcile (snd (reconcile this s1 t1 n1 x1)) s2 t2 n2 x2))
  = _latestState (snd (reconcile (snd (reconcile this s2 t2 n2 x2)) s1 t1 n1 x1)).
Proof.
  intros Hd. rewrite !reconcile_after. cbv zeta.
  unfold _shouldAcceptUpdate, set_latestState. simpl.
  destruct (decide (s1 = s2)) as [<-|Hne].
  - destruct Hd as [Hd|Hd]; [contradiction|].
    store_cases this; simplify_eq; simpl in *;
      try reflexivity; try lia; try congruence.
  - assert (Hk : _selectionKey s1 <> _selectionKey s2)
      by (intros E; apply Hne, selectionKey_inj, E).
    assert (Hk' : _selectionKey s2 <> _selectionKey s1) by congruence.
    repeat (simpl;
            rewrite ?lookup_insert_eq, ?(lookup_insert_ne _ _ _ _ Hk),
              ?(lookup_insert_ne _ _ _ _ Hk');
            match goal with
            | |- context [JS.eq_str ?a ?b] => destruct (JS.eq_str a b) eqn:?
            | |- context [_latestState this !! ?k] =>
                destruct (_latestState this !! k) eqn:?
            | |- context [(?a <? ?b)%Z] => destruct (Z.ltb_spec a b)
            | |- context [(?a =? ?b)%Z] => destruct (Z.eqb_spec a b)
            | |- context [String.eqb ?a ?b] => destruct (String.eqb_spec a b)
            end);
      simpl; simplify_eq; simpl in *; try reflexivity; try lia; try congruence;
      apply insert_insert_ne; congruence.
Qed.

Lemma reconcile_tie (this : Extension) (selection : ClipboardType) (t : Z)
    (n1 n2 : JS.value) (x1 x2 : string) :
  n1 <> JS.Str (_nodeId this) -> n2 <> JS.Str (_nodeId this) -> x1 <> x2 ->
  (forall cur,
     _latestState this !! _selectionKey selection = Some cur ->
     (State.timestamp cur <= t)%Z) ->
  _latestState (snd (reconcile (snd (reconcile this selection t n1 x1))
                       selection t n2 x2)) !! _selectionKey selection
  = Some {| State.text := x2; State.timestamp := t; State.node := n2 |}.
Proof.
  intros H1 H2 Hx Hcur. apply eq_str_false in H1, H2.
  rewrite reconcile_after. cbv zeta.
  unfold _shouldAcceptUpdate, set_latestState. simpl. rewrite H1, H2.
  destruct (_latestState this !! _selectionKey selection) as [cur|] eqn:Ec.
  - specialize (Hcur cur eq_refl).
    store_cases this; rewrite ?lookup_insert_eq; simplify_eq; simpl in *;
      try reflexivity; try lia; try congruence.
  - store_cases this; rewrite ?lookup_insert_eq; simplify_eq; simpl in *;
      try reflexivity; try lia; try congruence.
Qed.

(** Two authenticated updates for known channels, handled one after the
    other, are two reconciliation steps. *)
Lemma serve_two_updates (now1 now2 : Z) (this : Extension)
    (payload1 payload2 : JS.value) (s1 s2 : ClipboardType) (t1 t2 : Z) :
  authenticated this payload1 ->
  JS.eq_str (dispatch_type payload1) "update" = true ->
  update_selection this payload1 = Some s1 ->
  update_timestamp now1 payload1 = Some t1 ->
  authenticated this payload2 ->
  JS.eq_str (dispatch_type payload2) "update" = true ->
  update_selection this payload2 = Some s2 ->
  update_timestamp now2 payload2 = Some t2 ->
  serve this [(now1, payload1); (now2, payload2)]
  = snd (reconcile
           (snd (reconcile this s1 t1
                   (update_sourceNode payload1) (update_text payload1)))
           s2 t2 (update_sourceNode payload2)
           (update_text payload2)).
Proof.
  intros Ha1 Ht1 Hs1 Hts1 Ha2 Ht2 Hs2 Hts2. simpl.
  rewrite (handlePayload_update_at now1 this payload1 s1 t1 Ha1 Ht1 Hs1 Hts1).
  rewrite (handlePayload_update_later_at now2 this _ payload2 s2 t2); try assumption.
  - reflexivity.
  - apply reconcile_settings.
Qed.

(** X9: two authenticated updates that name different channels, or carry
    different timestamps, leave the same state store behind in whichever
    order they arrive.  (An update whose timestamp cannot be converted has
    none, and changes nothing in either order.) *)
Theorem distinct_timestamps_commute (now1 now2 : Z) (this : Extension)
    (payload1 payload2 : JS.value) (s1 s2 : ClipboardType) :
  authenticated this payload1 ->
  JS.eq_str (dispatch_type payload1) "update" = true ->
  update_selection this payload1 = Some s1 ->
  authenticated this payload2 ->
  JS.eq_str (dispatch_type payload2) "update" = true ->
  update_selection this payload2 = Some s2 ->
  s1 <> s2 \/ update_timestamp now1 payload1 <> update_timestamp now2 payload2 ->
  _latestState (serve this [(now1, payload1); (now2, payload2)])
  = _latestState (serve this [(now2, payload2); (now1, payload1)]).
Proof.
  intros Ha1 Ht1 Hs1 Ha2 Ht2 Hs2 Hd.
  destruct (update_timestamp now1 payload1) as [t1|] eqn:E1;
    destruct (update_timestamp now2 payload2) as [t2|] eqn:E2.
  - rewrite (serve_two_updates now1 now2 this payload1 payload2 s1 s2 t1 t2)
      by assumption.
    rewrite (serve_two_updates now2 now1 this payload2 payload1 s2 s1 t2 t1)
      by assumption.
    apply reconcile_commute.
    destruct Hd as [Hd|Hd]; [left; exact Hd | right; congruence].
  - simpl.
    rewrite (handlePayload_update_later_throws now2 this
               (snd (_handlePayload now1 this payload1)) payload2 s2);
      [|apply handlePayload_settings|assumption..].
    rewrite (handlePayload_update_later_throws now2 this this payload2 s2);
      [reflexivity|reflexivity|assumption..].
  - simpl.
    rewrite (handlePayload_update_later_throws now1 this this payload1 s1);
      [|reflexivity|assumption..].
    rewrite (handlePayload_update_later_throws now1 this
               (snd (_handlePayload now2 this payload2)) payload1 s1);
      [reflexivity|apply handlePayload_settings|assumption..].
  - simpl.
    rewrite (handlePayload_update_later_throws now1 this this payload1 s1);
      [|reflexivity|assumption..].
    rewrite (handlePayload_update_later_throws now2 this this payload2 s2);
      [|reflexivity|assumption..].
    rewrite (handlePayload_update_later_throws now1 this this payload1 s1);
      [reflexivity|reflexivity|assumption..].
Qed.

(** X10: two authenticated updates from other nodes for the same selection,
    which the server resolves, whose timestamps convert (neither
    conversion throws) to the same number, not older than the channel's
    record, and which carry different texts are both accepted: the channel
    ends with the text of whichever arrives last. *)
Theorem equal_timestamps_last_arrival_wins (now1 now2 : Z) (this : Extension)
    (payload1 payload2 : JS.value) (selection : ClipboardType) (timestamp : Z) :
  authenticated this payload1 ->
  JS.eq_str (dispatch_type payload1) "update" = true ->
  update_selection this payload1 = Some selection ->
  authenticated this payload2 ->
  JS.eq_str (dispatch_type payload2) "update" = true ->
  update_selection this payload2 = Some selection ->
  update_sourceNode payload1 <> JS.Str (_nodeId this) ->
  update_sourceNode payload2 <> JS.Str (_nodeId this) ->
  update_timestamp now1 payload1 = Some timestamp ->
  update_timestamp now2 payload2 = Some timestamp ->
  update_text payload1 <> update_text payload2 ->
  (forall cur,
     _latestState this !! _selectionKey selection = Some cur ->
     (State.timestamp cur <= timestamp)%Z) ->
  State.text <$> (_latestState (serve this [(now1, payload1); (now2, payload2)])
                    !! _selectionKey selection)
  = Some (update_text payload2)
  /\ State.text <$> (_latestState (serve this [(now2, payload2); (now1, payload1)])
                       !! _selectionKey selection)
     = Some (update_text payload1).
Proof.
  intros Ha1 Ht1 Hs1 Ha2 Ht2 Hs2 Hn1 Hn2 Hts1 Hts2 Hx Hcur.
  rewrite (serve_two_updates now1 now2 this payload1 payload2 selection selection
             timestamp timestamp) by assumption.
  rewrite (serve_two_updates now2 now1 this payload2 payload1 selection selection
             timestamp timestamp) by assumption.
  split.
  - rewrite reconcile_tie by assumption. reflexivity.
  - rewrite reconcile_tie by (try assumption; congruence). reflexivity.
Qed.

(** ** Local changes and their echoes *)

Lemma publishClipboard_payload (now : Z) (this : Extension)
    (selection : ClipboardType) (text : string) :
  _publishClipboard now this selection text
  = (JS.Obj [("type", JS.Str "update");
             ("node", JS.Str (_nodeId this));
             ("selection", JS.Str (_selectionKey selection));
             ("timestamp", JS.Num now);
             ("text", JS.Str text);
             ("secret", JS.Str (shared_secret (_settings this)))],
     _recordState this selection text now (JS.Str (_nodeId this))).
Proof. unfold _publishClipboard. simpl. rewrite str_or_empty. reflexivity. Qed.

Lemma update_selection_of_name (this : Extension) (payload : JS.value)
    (selection : ClipboardType) :
  JS.get payload "selection" = JS.Str (_selectionKey selection) ->
  ClipboardType_value selection <> 0%Z ->
  (selection = PRIMARY -> sync_primary (_settings this) = true) ->
  update_selection this payload = Some selection.
Proof.
  intros Hn Hv Hp. unfold update_selection. rewrite Hn.
  apply Z.eqb_neq in Hv.
  destruct selection; unfold _selectionFromKey; simpl.
  - rewrite (Hp eq_refl). simpl. unfold checked_selection, not_selection.
    rewrite Hv. reflexivity.
  - unfold checked_selection, not_selection. rewrite Hv. reflexivity.
Qed.

(** X11: what [_publishClipboard] sends for a selection whose value in
    [St.ClipboardType] is not [0] is accepted by a peer that has the same
    shared secret, another node identifier, the selection enabled and only
    an older record for it: the peer answers [{status:"ok"}], writes the
    text to its clipboard and records it with the publisher's clock
    reading and node identifier.  (The clock reading must not be [0], and
    the publisher's identifier not empty: the peer would replace them.
    With the numbering St declares the selection is [CLIPBOARD]; a
    publication for [PRIMARY], whose value is [0], is refused, see
    [scenario_primary_enabled] and [primary_publication_refused].) *)
Theorem published_update_accepted_by_peer (nowA nowB : Z) (A B : Extension)
    (selection : ClipboardType) (text : string) :
  nowA <> 0%Z ->
  _nodeId A <> "" ->
  _nodeId B <> _nodeId A ->
  shared_secret (_settings B) = shared_secret (_settings A) ->
  ClipboardType_value selection <> 0%Z ->
  (selection = PRIMARY -> sync_primary (_settings B) = true) ->
  (forall cur,
     _latestState B !! _selectionKey selection = Some cur ->
     (State.timestamp cur < nowA)%Z) ->
  let payload := fst (_publishClipboard nowA A selection text) in
  fst (_handlePayload nowB B payload) = Return (JS.status "ok")
  /\ _latestState (snd (_handlePayload nowB B payload)) !! _selectionKey selection
     = Some {| State.text := text; State.timestamp := nowA;
               State.node := JS.Str (_nodeId A) |}
  /\ _clipboard (snd (_handlePayload nowB B payload))
     = (selection, text) :: _clipboard B.
Proof.
  intros Hnow HidA Hid Hsec Hv Hp Hold payload. subst payload.
  rewrite publishClipboard_payload. cbn [fst].
  set (payload := JS.Obj _).
  assert (Ha : authenticated B payload).
  { unfold authenticated. subst payload. simpl. rewrite Hsec. reflexivity. }
  assert (Hs : update_selection B payload = Some selection).
  { apply update_selection_of_name; [reflexivity | exact Hv | exact Hp]. }
  assert (Hts : update_timestamp nowB payload = Some nowA).
  { unfold update_timestamp. subst payload. simpl.
    apply Z.eqb_neq in Hnow. rewrite Hnow. reflexivity. }
  rewrite (handlePayload_update_at nowB B payload selection nowA Ha eq_refl Hs Hts).
  assert (Hnode : update_sourceNode payload = JS.Str (_nodeId A)).
  { unfold update_sourceNode, JS.or. subst payload. simpl.
    apply String.eqb_neq in HidA. rewrite HidA. reflexivity. }
  assert (Htext : update_text payload = text) by reflexivity.
  rewrite Hnode, Htext. unfold reconcile, _shouldAcceptUpdate. simpl.
  replace (String.eqb (_nodeId A) (_nodeId B)) with false
    by (symmetry; apply String.eqb_neq; congruence).
  destruct (_latestState B !! _selectionKey selection) as [cur|] eqn:Hcur.
  - specialize (Hold cur eq_refl).
    replace (nowA <? State.timestamp cur)%Z with false
      by (symmetry; apply Z.ltb_ge; lia).
    replace (nowA =? State.timestamp cur)%Z with false
      by (symmetry; apply Z.eqb_neq; lia).
    simpl. rewrite lookup_insert_eq. auto.
  - simpl. rewrite lookup_insert_eq. auto.
Qed.

(** A publication for a selection whose value in [St.ClipboardType] is
    [0] is refused by a peer that has the same shared secret, whatever the
    peer's settings. *)
Lemma primary_publication_refused (nowA nowB : Z) (A B : Extension)
    (selection : ClipboardType) (text : string) :
  shared_secret (_settings B) = shared_secret (_settings A) ->
  ClipboardType_value selection = 0%Z ->
  _handlePayload nowB B (fst (_publishClipboard nowA A selection text))
  = (Return (JS.error "Unknown selection"), B).
Proof.
  intros Hsec Hv. rewrite publishClipboard_payload. cbn [fst].
  set (payload := JS.Obj _).
  assert (Ha : authenticated B payload).
  { unfold authenticated. subst payload. simpl. rewrite Hsec. reflexivity. }
  rewrite (handlePayload_dispatch nowB B payload Ha).
  change (JS.eq_str (dispatch_type payload) "update") with true. cbv iota.
  destruct (update_selection B payload) as [sel|] eqn:Hs; [|reflexivity].
  exfalso. pose proof (update_selection_name _ _ _ Hs) as Hname.
  subst payload. simpl in Hname. injection Hname as Hname.
  apply selectionKey_inj in Hname. subst sel.
  unfold update_selection, checked_selection in Hs.
  destruct (_selectionFromKey B _) as [sel|]; [|discriminate].
  unfold not_selection in Hs.
  destruct (Z.eqb_spec (ClipboardType_value sel) 0) as [Hz|Hnz]; [discriminate|].
  injection Hs as ->. contradiction.
Qed.

(** X12: a node never applies its own publication: when the payload
    [_publishClipboard] built comes back to the node that built it, the
    reply is not [{status:"ok"}] and the extension stays as the
    publication left it. *)
Theorem own_publication_not_applied (now now' : Z) (this : Extension)
    (selection : ClipboardType) (text : string) :
  _nodeId this <> "" ->
  let published := _publishClipboard now this selection text in
  fst (_handlePayload now' (snd published) (fst published)) <> Return (JS.status "ok")
  /\ snd (_handlePayload now' (snd published) (fst published)) = snd published.
Proof.
  intros Hid published. subst published. rewrite publishClipboard_payload.
  cbn [fst snd]. set (payload := JS.Obj _). set (this' := _recordState _ _ _ _ _).
  assert (Ha : authenticated this' payload) by reflexivity.
  rewrite (handlePayload_dispatch now' this' payload Ha).
  change (JS.eq_str (dispatch_type payload) "update") with true. cbv iota.
  destruct (update_selection this' payload) as [sel|]; [|split; [discriminate|reflexivity]].
  assert (Hnode : update_sourceNode payload = JS.Str (_nodeId this')).
  { unfold update_sourceNode, JS.or. subst payload this'. simpl.
    apply String.eqb_neq in Hid. rewrite Hid. reflexivity. }
  unfold reconcile_update.
  destruct (update_timestamp now' payload) as [ts|];
    [|split; [discriminate|reflexivity]].
  rewrite Hnode. unfold reconcile. rewrite shouldAcceptUpdate_self_echo.
  split; [discriminate|reflexivity].
Qed.

Lemma update_selection_enabled (this : Extension) (payload : JS.value)
    (selection : ClipboardType) :
  update_selection this payload = Some selection ->
  bool_decide (selection = PRIMARY) && negb (sync_primary (_settings this)) = false.
Proof.
  unfold update_selection, checked_selection.
  destruct (not_selection _); [discriminate|].
  unfold _selectionFromKey. simpl.
  destruct (JS.eq_str _ "CLIPBOARD"); simpl; [intros [= <-]; reflexivity|].
  destruct (JS.eq_str _ "PRIMARY"); [|discriminate]. simpl.
  destruct (sync_primary (_settings this)); [|discriminate].
  intros _. apply andb_false_r.
Qed.

(** [onOwnerChange_signal] on a named selection leaves the extension as
    [_onOwnerChange] does. *)
Lemma onOwnerChange_signal_extension (now : ClipboardType -> Z) (this : Extension)
    (observed : gmap string string) (selection : ClipboardType)
    (content : ClipboardType -> JS.value) :
  snd (fst (onOwnerChange_signal now this observed (Some selection) content))
  = _onOwnerChange (now selection) this selection (content selection).
Proof.
  unfold onOwnerChange_signal, _onOwnerChange.
  destruct (bool_decide (selection = PRIMARY) && negb (sync_primary (_settings this)));
    [reflexivity|].
  destruct (bool_decide _); [reflexivity|].
  destruct (content selection); reflexivity.
Qed.

(** X13: the clipboard change that an accepted remote update causes is
    not published again.  On the signal path the notification for that
    selection sends nothing, keeps the state store and clears the flag, so
    that the next change of the selection is published under the node's
    own identifier; on the polling path the callback sends nothing, keeps
    the state store and notes the text as observed. *)
Theorem accepted_update_not_republished (now : Z) (this this' : Extension)
    (payload : JS.value) (selection : ClipboardType)
    (later : ClipboardType -> Z) (observed : gmap string string)
    (content : ClipboardType -> JS.value) :
  _handlePayload now this payload = (Return (JS.status "ok"), this') ->
  update_selection this payload = Some selection ->
  let key := _selectionKey selection in
  let signalled := onOwnerChange_signal later this' observed (Some selection) content in
  (signalled = ([], delete_suppressed this' key, observed)
   /\ (key ∉ _suppressedSelections (delete_suppressed this' key))
   /\ forall text,
        content selection = JS.Str text ->
        onOwnerChange_signal later (delete_suppressed this' key) observed
          (Some selection) content
        = ([fst (_publishClipboard (later selection)
                   (delete_suppressed this' key) selection text)],
           _recordState (delete_suppressed this' key) selection text
             (later selection) (JS.Str (_nodeId this)),
           observed))
  /\ (forall text,
        checkLocalClipboard_callback (later selection) this' observed selection
          (JS.Str text)
        = (None, delete_suppressed this' key, <[ key := text ]> observed)).
Proof.
  intros Hok Hs key signalled. subst signalled key.
  destruct (handlePayload_ok_inv now this payload) as (sel & ts & Hs' & _ & _ & Heq);
    [rewrite Hok; reflexivity|].
  rewrite Hok in Heq. simpl in Heq. rewrite Hs in Hs'. injection Hs' as <-.
  pose proof (update_selection_enabled _ _ _ Hs) as Hen.
  assert (Hin : _selectionKey selection ∈ _suppressedSelections this').
  { subst this'. simpl. apply elem_of_union_l, elem_of_singleton. reflexivity. }
  assert (Hset : _settings this' = _settings this) by (subst this'; reflexivity).
  assert (Hid : _nodeId this' = _nodeId this) by (subst this'; reflexivity).
  assert (Hout : _selectionKey selection
                 ∉ _suppressedSelections (delete_suppressed this' (_selectionKey selection))).
  { simpl. intros Hx. apply elem_of_difference in Hx as [_ Hx].
    apply Hx, elem_of_singleton. reflexivity. }
  split; [split; [|split]|].
  - unfold onOwnerChange_signal. rewrite Hset, Hen.
    rewrite (bool_decide_eq_true_2 _ Hin). reflexivity.
  - exact Hout.
  - intros text Hc. unfold onOwnerChange_signal.
    change (_settings (delete_suppressed this' (_selectionKey selection)))
      with (_settings this').
    rewrite Hset, Hen, (bool_decide_eq_false_2 _ Hout), Hc.
    rewrite publishClipboard_payload. cbn [fst]. simpl _nodeId.
    rewrite Hid. reflexivity.
  - intros text. unfold checkLocalClipboard_callback.
    rewrite (bool_decide_eq_true_2 _ Hin). reflexivity.
Qed.

(** X14: while [sync-primary] is off, no clipboard notification, whether
    it names a selection or not, publishes anything for [PRIMARY] or
    changes the record stored for [PRIMARY]: what is sent names
    [CLIPBOARD]. *)
Theorem primary_not_published_when_disabled (now : ClipboardType -> Z)
    (this : Extension) (observed : gmap string string)
    (selection : option ClipboardType) (content : ClipboardType -> JS.value) :
  sync_primary (_settings this) = false ->
  let r := onOwnerChange_signal now this observed selection content in
  (forall sent, sent ∈ fst (fst r) -> JS.get sent "selection" = JS.Str "CLIPBOARD")
  /\ _latestState (snd (fst r)) !! "PRIMARY" = _latestState this !! "PRIMARY".
Proof.
  intros Hoff r. subst r.
  assert (Hone : forall sent p : JS.value, sent ∈ [p] -> sent = p).
  { intros sent p Hin. apply list_elem_of_singleton in Hin. exact Hin. }
  assert (Hnil : forall sent : JS.value, sent ∈ [] -> False).
  { intros sent Hin. apply elem_of_nil in Hin. exact Hin. }
  destruct selection as [[|]|]; unfold onOwnerChange_signal.
  - rewrite Hoff. simpl. split; [intros sent Hin; destruct (Hnil _ Hin) | reflexivity].
  - simpl. destruct (bool_decide _).
    { simpl. split; [intros sent Hin; destruct (Hnil _ Hin) | reflexivity]. }
    destruct (content CLIPBOARD);
      try (simpl; split; [intros sent Hin; destruct (Hnil _ Hin) | reflexivity]).
    simpl. split.
    + intros sent Hin. rewrite (Hone _ _ Hin). reflexivity.
    + apply lookup_insert_ne. discriminate.
  - unfold _checkLocalClipboard, checkLocalClipboard_selections. rewrite Hoff.
    simpl. unfold checkLocalClipboard_callback.
    destruct (content CLIPBOARD);
      try (simpl; split; [intros sent Hin; destruct (Hnil _ Hin) | reflexivity]).
    destruct (bool_decide _).
    { simpl. split; [intros sent Hin; destruct (Hnil _ Hin) | reflexivity]. }
    destruct (bool_decide _).
    { simpl. split; [intros sent Hin; destruct (Hnil _ Hin) | reflexivity]. }
    simpl. split.
    + intros sent Hin. rewrite (Hone _ _ Hin). reflexivity.
    + apply lookup_insert_ne. discriminate.
Qed.

(** ** The polling watcher *)

(** After its callback has run, a selection whose content is a string is
    not flagged and has that string as its observed text; the settings are
    as before. *)
Lemma callback_settles (now : Z) (this : Extension) (observed : gmap string string)
    (selection : ClipboardType) (content : JS.value) :
  let r := checkLocalClipboard_callback now this observed selection content in
  _settings (snd (fst r)) = _settings this
  /\ (forall text,
        content = JS.Str text ->
        (_selectionKey selection ∉ _suppressedSelections (snd (fst r)))
        /\ snd r !! _selectionKey selection = Some text).
Proof.
  intros r. subst r. unfold checkLocalClipboard_callback.
  destruct content as [| |b|n|s|l|l];
    try (split; [reflexivity | intros text [=]]).
  destruct (bool_decide (_selectionKey selection ∈ _suppressedSelections this)) eqn:Hin.
  { split; [reflexivity|]. intros text [= <-]. simpl. split.
    - intros Hx. apply elem_of_difference in Hx as [_ Hx].
      apply Hx, elem_of_singleton. reflexivity.
    - apply lookup_insert_eq. }
  apply bool_decide_eq_false in Hin.
  destruct (bool_decide (observed !! _selectionKey selection = Some s)) eqn:Hobs.
  { apply bool_decide_eq_true in Hobs.
    split; [reflexivity|]. intros text [= <-]. simpl. split; assumption. }
  rewrite publishClipboard_payload. simpl.
  split; [reflexivity|]. intros text [= <-]. split; [exact Hin | apply lookup_insert_eq].
Qed.

(** A callback never flags a selection, and leaves the observed text of
    the other selection alone. *)
Lemma callback_other (now : Z) (this : Extension) (observed : gmap string string)
    (selection other : ClipboardType) (content : JS.value) :
  other <> selection ->
  let r := checkLocalClipboard_callback now this observed selection content in
  (_selectionKey other ∉ _suppressedSelections this ->
   _selectionKey other ∉ _suppressedSelections (snd (fst r)))
  /\ snd r !! _selectionKey other = observed !! _selectionKey other.
Proof.
  intros Hne r. subst r.
  assert (Hk : _selectionKey selection <> _selectionKey other)
    by (intros E; apply Hne; symmetry; apply selectionKey_inj, E).
  unfold checkLocalClipboard_callback.
  destruct content as [| |b|n|s|l|l]; try (split; [auto | reflexivity]).
  destruct (bool_decide (_selectionKey selection ∈ _suppressedSelections this)).
  { simpl. split.
    - intros Hout Hx. apply elem_of_difference in Hx as [Hx _]. exact (Hout Hx).
    - apply lookup_insert_ne. exact Hk. }
  destruct (bool_decide (observed !! _selectionKey selection = Some s)).
  { split; [auto | reflexivity]. }
  rewrite publishClipboard_payload. simpl. split; [auto|].
  apply lookup_insert_ne. exact Hk.
Qed.

(** A callback for a selection that is not flagged and whose content, if
    a string, is the observed text does nothing. *)
Lemma callback_quiet (now : Z) (this : Extension) (observed : gmap string string)
    (selection : ClipboardType) (content : JS.value) :
  (forall text,
     content = JS.Str text ->
     (_selectionKey selection ∉ _suppressedSelections this)
     /\ observed !! _selectionKey selection = Some text) ->
  checkLocalClipboard_callback now this observed selection content
  = (None, this, observed).
Proof.
  intros H. unfold checkLocalClipboard_callback.
  destruct content as [| |b|n|s|l|l]; try reflexivity.
  destruct (H s eq_refl) as [Hout Hobs].
  rewrite (bool_decide_eq_false_2 _ Hout), (bool_decide_eq_true_2 _ Hobs).
  reflexivity.
Qed.

Lemma callbacks_settle_one (now1 now2 : ClipboardType -> Z) (this : Extension)
    (observed : gmap string string) (content : ClipboardType -> JS.value) :
  let r := checkLocalClipboard_callbacks now1 this observed content [CLIPBOARD] in
  _settings (snd (fst r)) = _settings this
  /\ checkLocalClipboard_callbacks now2 (snd (fst r)) (snd r) content [CLIPBOARD]
     = ([], snd (fst r), snd r).
Proof.
  intros r. subst r. cbn [checkLocalClipboard_callbacks].
  pose proof (callback_settles (now1 CLIPBOARD) this observed CLIPBOARD
                (content CLIPBOARD)) as [Hset1 Hc].
  destruct (checkLocalClipboard_callback (now1 CLIPBOARD) this observed CLIPBOARD
              (content CLIPBOARD)) as [[sent1 this1] observed1].
  cbn [fst snd] in Hset1, Hc.
  assert (Hquiet : checkLocalClipboard_callback (now2 CLIPBOARD) this1 observed1
                     CLIPBOARD (content CLIPBOARD) = (None, this1, observed1))
    by (apply callback_quiet; exact Hc).
  destruct sent1; cbn [fst snd]; rewrite Hquiet; split; auto.
Qed.

Lemma callbacks_settle_two (now1 now2 : ClipboardType -> Z) (this : Extension)
    (observed : gmap string string) (content : ClipboardType -> JS.value) :
  let r := checkLocalClipboard_callbacks now1 this observed content
             [CLIPBOARD; PRIMARY] in
  _settings (snd (fst r)) = _settings this
  /\ checkLocalClipboard_callbacks now2 (snd (fst r)) (snd r) content
       [CLIPBOARD; PRIMARY]
     = ([], snd (fst r), snd r).
Proof.
  intros r. subst r. cbn [checkLocalClipboard_callbacks].
  pose proof (callback_settles (now1 CLIPBOARD) this observed CLIPBOARD
                (content CLIPBOARD)) as [Hset1 Hc].
  destruct (checkLocalClipboard_callback (now1 CLIPBOARD) this observed CLIPBOARD
              (content CLIPBOARD)) as [[sent1 this1] observed1].
  cbn [fst snd] in Hset1, Hc.
  pose proof (callback_settles (now1 PRIMARY) this1 observed1 PRIMARY
                (content PRIMARY)) as [Hset2 Hq].
  pose proof (callback_other (now1 PRIMARY) this1 observed1 PRIMARY CLIPBOARD
                (content PRIMARY)) as [Hflag Hobs]; [discriminate|].
  destruct (checkLocalClipboard_callback (now1 PRIMARY) this1 observed1 PRIMARY
              (content PRIMARY)) as [[sent2 this2] observed2].
  cbn [fst snd] in Hset2, Hq, Hflag, Hobs.
  assert (Hquiet1 : checkLocalClipboard_callback (now2 CLIPBOARD) this2 observed2
                      CLIPBOARD (content CLIPBOARD) = (None, this2, observed2)).
  { apply callback_quiet. intros text Ht. destruct (Hc text Ht) as [Hout Hob].
    split; [exact (Hflag Hout) | rewrite Hobs; exact Hob]. }
  assert (Hquiet2 : checkLocalClipboard_callback (now2 PRIMARY) this2 observed2
                      PRIMARY (content PRIMARY) = (None, this2, observed2))
    by (apply callback_quiet; exact Hq).
  destruct sent1, sent2; cbn [fst snd]; rewrite Hquiet1, Hquiet2;
    split; try reflexivity; congruence.
Qed.

(** X15: the polling watcher settles: a second [_checkLocalClipboard] that
    finds the clipboard contents of the first publishes nothing and leaves
    the extension and the observed texts as the first left them. *)
Theorem checkLocalClipboard_settles (now1 now2 : ClipboardType -> Z)
    (this : Extension) (observed : gmap string string)
    (content : ClipboardType -> JS.value) :
  let first := _checkLocalClipboard now1 this observed content in
  _checkLocalClipboard now2 (snd (fst first)) (snd first) content
  = ([], snd (fst first), snd first).
Proof.
  intros first. subst first. unfold _checkLocalClipboard.
  unfold checkLocalClipboard_selections.
  destruct (sync_primary (_settings this)) eqn:Hp.
  - destruct (callbacks_settle_two now1 now2 this observed content) as [Hset Hq].
    rewrite Hset, Hp. exact Hq.
  - destruct (callbacks_settle_one now1 now2 this observed content) as [Hset Hq].
    rewrite Hset, Hp. exact Hq.
Qed.

(** ** Polling the peer *)

Lemma pollRemote_payload_authenticated (now : Z) (A B : Extension) :
  shared_secret (_settings B) = shared_secret (_settings A) ->
  authenticated B (pollRemote_payload now A).
Proof.
  intros Hsec. unfold authenticated, pollRemote_payload. simpl.
  rewrite str_or_empty, Hsec. reflexivity.
Qed.

(** What a peer answers to the request of [_pollRemote]. *)
Lemma pollRemote_reply (nowA nowB : Z) (A B : Extension) :
  shared_secret (_settings B) = shared_secret (_settings A) ->
  fst (_handlePayload nowB B (pollRemote_payload nowA A))
  = Return
      match _latestState B !! "CLIPBOARD" with
      | None => JS.status "empty"
      | Some state =>
          JS.Obj [("status", JS.Str "ok");
                  ("type", JS.Str "update");
                  ("node", JS.Str (_nodeId B));
                  ("selection", JS.Str "CLIPBOARD");
                  ("timestamp", JS.Num (State.timestamp state));
                  ("text", JS.Str (State.text state))]
      end.
Proof.
  intros Hsec.
  rewrite (handlePayload_dispatch nowB B _ (pollRemote_payload_authenticated nowA A B Hsec)).
  simpl. destruct (_latestState B !! "CLIPBOARD"); reflexivity.
Qed.

(** An object whose [secret] is not the configured one is refused. *)
Lemma handlePayload_unauthorized (now : Z) (this : Extension) (payload : JS.value) :
  ~ authenticated this payload ->
  JS.truthy payload && JS.typeof_object payload = true ->
  _handlePayload now this payload = (Return (JS.status "unauthorized"), this).
Proof.
  intros Hna Hobj. unfold _handlePayload. rewrite <- negb_andb, Hobj. simpl.
  rewrite str_or_empty.
  destruct (JS.eq_str _ _) eqn:E; [|reflexivity].
  apply eq_str_true in E. contradiction.
Qed.

(** X16: a poll changes nothing unless the peer answers with a stored
    record: when the peer has another shared secret, or no record for
    [CLIPBOARD], what it answers leaves the polling node as it was. *)
Theorem poll_without_record_changes_nothing (nowA nowB : Z) (A B : Extension) :
  shared_secret (_settings B) <> shared_secret (_settings A)
  \/ _latestState B !! "CLIPBOARD" = None ->
  pollRemote_resume A
    (answer (fst (_handlePayload nowB B (pollRemote_payload nowA A))))
  = Resumed_with A.
Proof.
  intros H.
  destruct (decide (shared_secret (_settings B) = shared_secret (_settings A)))
    as [Hsec|Hsec].
  - destruct H as [H|Hnone]; [contradiction|].
    rewrite (pollRemote_reply nowA nowB A B Hsec), Hnone. reflexivity.
  - rewrite (handlePayload_unauthorized nowB B (pollRemote_payload nowA A));
      [reflexivity| |reflexivity].
    unfold authenticated, pollRemote_payload. simpl. rewrite str_or_empty.
    intros [= E]. apply Hsec. symmetry. exact E.
Qed.


(** X18: a published text is not pulled back: after node A has published
    a [CLIPBOARD] text (at a clock reading other than [0]) and a peer with
    the same shared secret has accepted it, a poll of that peer leaves
    node A exactly as the publication left it. *)
Theorem published_text_not_pulled_back (nowA nowB nowA' nowB' : Z)
    (A B B' : Extension) (text : string) :
  nowA <> 0%Z ->
  shared_secret (_settings B) = shared_secret (_settings A) ->
  let published := _publishClipboard nowA A CLIPBOARD text in
  _handlePayload nowB B (fst published) = (Return (JS.status "ok"), B') ->
  pollRemote_resume (snd published)
    (answer (fst (_handlePayload nowB' B' (pollRemote_payload nowA' (snd published)))))
  = Resumed_with (snd published).
Proof.
  intros Hnow Hsec published. subst published. rewrite publishClipboard_payload.
  cbn [fst snd]. set (payload := JS.Obj _). set (A' := _recordState _ _ _ _ _).
  intros Hok.
  destruct (handlePayload_ok_inv nowB B payload) as (sel & ts & Hs & Hts' & _ & Heq);
    [rewrite Hok; reflexivity|].
  rewrite Hok in Heq. simpl in Heq.
  assert (Hsel : sel = CLIPBOARD).
  { apply update_selection_name in Hs. apply selectionKey_inj.
    subst payload. simpl in Hs. injection Hs as Hs. symmetry. exact Hs. }
  subst sel.
  assert (Hv : ClipboardType_value CLIPBOARD <> 0%Z).
  { unfold update_selection, checked_selection in Hs.
    destruct (not_selection _) eqn:Hn; [discriminate|].
    subst payload. unfold _selectionFromKey in Hn. simpl in Hn.
    apply Z.eqb_neq. exact Hn. }
  assert (Hts : ts = nowA).
  { revert Hts'. unfold update_timestamp. subst payload. simpl.
    apply Z.eqb_neq in Hnow. rewrite Hnow. intros [= <-]. reflexivity. }
  subst ts.
  assert (HB' : _latestState B' !! "CLIPBOARD"
                = Some {| State.text := text; State.timestamp := nowA;
                          State.node := update_sourceNode payload |}).
  { subst B'. simpl. rewrite lookup_insert_eq. reflexivity. }
  assert (Hsec' : shared_secret (_settings B') = shared_secret (_settings A'))
    by (subst B' A'; exact Hsec).
  rewrite (pollRemote_reply nowA' nowB' A' B' Hsec'), HB'. cbn [answer].
  unfold pollRemote_resume. cbn [JS.truthy JS.get JS.assoc String.eqb Ascii.eqb
    Bool.eqb JS.eq_str andb State.timestamp State.text].
  assert (Hsel : checked_selection (_selectionFromKey A' (JS.Str "CLIPBOARD"))
                 = Some CLIPBOARD).
  { unfold _selectionFromKey. simpl. unfold checked_selection, not_selection.
    apply Z.eqb_neq in Hv. rewrite Hv. reflexivity. }
  rewrite Hsel. unfold _shouldAcceptUpdate. subst A'. simpl.
  rewrite lookup_insert_eq. simpl.
  rewrite Z.ltb_irrefl, Z.eqb_refl, String.eqb_refl.
  destruct (String.eqb (_nodeId B') (_nodeId A)); reflexivity.
Qed.

(** ** The client's connection *)

(** X19: [_sendMessage] returns something else than [null] only when a
    reply was expected and every step succeeded: the connection, the
    write, the read of a line, its parsing and both closes; what it
    returns is then the parsed reply.  A push, which expects no reply,
    always returns [null]. *)
Theorem sendMessage_result (this : Extension) (net : PeerIO)
    (payload : JS.value) (expectResponse : bool) :
  fst (_sendMessage this net payload expectResponse) <> JS.Null ->
  expectResponse = true
  /\ peer_connect net = None
  /\ peer_write net = None
  /\ peer_close_output net = None
  /\ peer_close net = None
  /\ exists line,
       peer_read net = ReadLine (Some line)
       /\ JSON_parse (TextDecoder_decode line)
          = Parsed (fst (_sendMessage this net payload expectResponse)).
Proof.
  unfold _sendMessage.
  destruct (String.eqb (peer_endpoint (_settings this)) ""); [simpl; congruence|].
  destruct (Uri_parse _) as [uri|]; [|simpl; congruence].
  destruct (get_host uri) as [host|]; [|simpl; congruence].
  destruct (String.eqb host "" || _ || _); [simpl; congruence|].
  destruct (peer_connect net); [simpl; congruence|].
  destruct (peer_write net); [simpl; congruence|].
  destruct expectResponse.
  - destruct (peer_read net) as [e|[line|]]; [simpl; congruence| |].
    + destruct (JSON_parse (TextDecoder_decode line)) as [response|e] eqn:Hp;
        [|simpl; congruence].
      destruct (peer_close_output net); [simpl; congruence|].
      destruct (peer_close net); [simpl; congruence|].
      simpl. intros _. repeat (split; [reflexivity|]).
      exists line. split; [reflexivity | exact Hp].
    + destruct (peer_close_output net); [simpl; congruence|].
      destruct (peer_close net); simpl; congruence.
  - destruct (peer_close_output net); [simpl; congruence|].
    destruct (peer_close net); simpl; congruence.
Qed.

Ltac elem_of_calls H :=
  simpl in H;
  repeat (apply elem_of_cons in H as [H|H]; [try discriminate|]);
  try (apply elem_of_nil in H; contradiction).

(** X20: whatever the peer does, [_sendMessage] connects only to the host
    of the configured URI, which is not empty, on the URI's port or, when
    it names none, on [listen-port], and that port lies between 1 and
    65535; the only bytes it writes are the payload's line. *)
Theorem sendMessage_destination (this : Extension) (net : PeerIO)
    (payload : JS.value) (expectResponse : bool) :
  let calls := snd (_sendMessage this net payload expectResponse) in
  (forall host port,
     Connect host port ∈ calls ->
     exists uri,
       Uri_parse (peer_endpoint (_settings this)) = Some uri
       /\ get_host uri = Some host
       /\ host <> ""
       /\ port = destination_port this uri
       /\ (0 < port <= 65535)%Z)
  /\ (forall bytes,
        WriteAll bytes ∈ calls ->
        bytes = JSON_stringify payload +:+ JS.newline).
Proof.
  intros calls. subst calls. unfold _sendMessage.
  destruct (String.eqb (peer_endpoint (_settings this)) "").
  { split; [intros ? ? Hin | intros ? Hin]; elem_of_calls Hin. }
  destruct (Uri_parse _) as [uri|];
    [|split; [intros ? ? Hin | intros ? Hin]; elem_of_calls Hin].
  destruct (get_host uri) as [host|] eqn:Hh;
    [|split; [intros ? ? Hin | intros ? Hin]; elem_of_calls Hin].
  fold (destination_port this uri).
  destruct (String.eqb host "") eqn:Hne;
    [split; [intros ? ? Hin | intros ? Hin]; elem_of_calls Hin|].
  destruct (Z.leb_spec (destination_port this uri) 0) as [Hle|Hpos];
    [split; [intros ? ? Hin | intros ? Hin]; elem_of_calls Hin|].
  destruct (Z.ltb_spec 65535 (destination_port this uri)) as [Hbig|Hmax];
    [split; [intros ? ? Hin | intros ? Hin]; elem_of_calls Hin|].
  apply String.eqb_neq in Hne. cbn [orb].
  assert (Hgood : forall h p,
            Connect h p = Connect host (destination_port this uri) ->
            exists uri0, Some uri = Some uri0 /\ get_host uri0 = Some h /\ h <> ""
                         /\ p = destination_port this uri0 /\ (0 < p <= 65535)%Z).
  { intros h p [= -> ->]. exists uri. repeat split; auto; lia. }
  destruct (peer_connect net).
  { split; [intros ? ? Hin | intros ? Hin]; elem_of_calls Hin.
    apply Hgood. exact Hin. }
  destruct (peer_write net).
  { split; [intros ? ? Hin | intros ? Hin]; elem_of_calls Hin;
      [apply Hgood; exact Hin | congruence]. }
  destruct expectResponse.
  - destruct (peer_read net) as [e|[line|]].
    + split; [intros ? ? Hin | intros ? Hin]; elem_of_calls Hin;
        [apply Hgood; exact Hin | congruence].
    + destruct (JSON_parse _).
      * destruct (peer_close_output net); [|destruct (peer_close net)];
          (split; [intros ? ? Hin | intros ? Hin]); elem_of_calls Hin;
          try (apply Hgood; exact Hin); congruence.
      * split; [intros ? ? Hin | intros ? Hin]; elem_of_calls Hin;
          [apply Hgood; exact Hin | congruence].
    + destruct (peer_close_output net); [|destruct (peer_close net)];
        (split; [intros ? ? Hin | intros ? Hin]); elem_of_calls Hin;
        try (apply Hgood; exact Hin); congruence.
  - destruct (peer_close_output net); [|destruct (peer_close net)];
      (split; [intros ? ? Hin | intros ? Hin]); elem_of_calls Hin;
      try (apply Hgood; exact Hin); congruence.
Qed.

(** ** One reply per connection *)

(** X21: on every path, a read that throws or delivers nothing, a line
    that does not parse, a request of any kind, a handler that throws, a
    write or a close that fails, [_processIncoming] writes exactly one
    reply line, after nothing but log entries, and goes on to close the
    connection; for a line that parses, the reply is what [_handlePayload]
    returns, or [{status:"error", message}] with the message of the error
    it throws, and the extension afterwards is the one [_handlePayload]
    leaves, which is the extension as it was when it throws. *)
Theorem processIncoming_replies_once (now : Z) (this : Extension) (io : ConnectionIO) :
  exists logs response rest,
    fst (_processIncoming now this io)
    = ReadLineAsync :: logs
        ++ WriteAll (JSON_stringify response +:+ JS.newline) :: rest
    /\ (forall call, call ∈ logs -> exists message, call = Log message)
    /\ (forall bytes, WriteAll bytes ∉ rest)
    /\ CloseConnection ∈ rest
    /\ (forall line payload,
          conn_read io = ReadLine (Some line) ->
          JSON_parse (TextDecoder_decode line) = Parsed payload ->
          (response, snd (_processIncoming now this io))
          = (answer (fst (_handlePayload now this payload)),
             snd (_handlePayload now this payload))
          /\ (forall message,
                fst (_handlePayload now this payload) = Throw message ->
                response = JS.error message
                /\ snd (_processIncoming now this io) = this
                /\ logs = [Log ("Error reading payload: " +:+ message)])).
Proof.
  assert (Hfin : forall response,
    exists rest,
      incoming_finally io response
      = WriteAll (JSON_stringify response +:+ JS.newline) :: rest
      /\ (forall bytes, WriteAll bytes ∉ rest)
      /\ CloseConnection ∈ rest).
  { intros response. unfold incoming_finally.
    destruct (conn_write io), (conn_close_output io), (conn_close io);
      simpl; eexists; (split; [reflexivity|]); (split;
        [intros bytes Hin; elem_of_calls Hin
        |repeat first [apply list_elem_of_here | apply list_elem_of_further]]). }
  unfold _processIncoming, incoming_try.
  destruct (conn_read io) as [e|[line|]] eqn:Hr.
  - destruct (Hfin (JS.error e)) as (rest & Hrest & Hw & Hc).
    exists [Log ("Error reading payload: " +:+ e)], (JS.error e), rest. simpl.
    rewrite Hrest. split; [reflexivity|]. split.
    { intros call H. apply list_elem_of_singleton in H. eauto. }
    split; [exact Hw|]. split; [exact Hc|]. intros line payload [=].
  - destruct (JSON_parse (TextDecoder_decode line)) as [payload|e] eqn:Hp.
    + pose proof (handlePayload_throw now this payload) as Hsame.
      destruct (_handlePayload now this payload) as [[response|message] this'] eqn:Hh.
      * destruct (Hfin response) as (rest & Hrest & Hw & Hc).
        exists [], response, rest. simpl. rewrite Hrest.
        split; [reflexivity|]. split.
        { intros call H. apply elem_of_nil in H. contradiction. }
        split; [exact Hw|]. split; [exact Hc|].
        intros line' payload' [= <-] Hp'. rewrite Hp in Hp'.
        injection Hp' as <-. rewrite Hh. split; [reflexivity|].
        intros message [=].
      * destruct (Hfin (JS.error message)) as (rest & Hrest & Hw & Hc).
        exists [Log ("Error reading payload: " +:+ message)], (JS.error message), rest.
        simpl. rewrite Hrest. split; [reflexivity|]. split.
        { intros call H. apply list_elem_of_singleton in H. eauto. }
        split; [exact Hw|]. split; [exact Hc|].
        intros line' payload' [= <-] Hp'. rewrite Hp in Hp'.
        injection Hp' as <-. rewrite Hh. split; [reflexivity|].
        intros message' [= <-]. split; [reflexivity|].
        split; [exact (Hsame message eq_refl) | reflexivity].
    + destruct (Hfin (JS.error e)) as (rest & Hrest & Hw & Hc).
      exists [Log ("Error reading payload: " +:+ e)], (JS.error e), rest. simpl.
      rewrite Hrest. split; [reflexivity|]. split.
      { intros call H. apply list_elem_of_singleton in H. eauto. }
      split; [exact Hw|]. split; [exact Hc|].
      intros line' payload' [= <-] Hp'. rewrite Hp in Hp'. discriminate.
  - destruct (Hfin (JS.status "ignored")) as (rest & Hrest & Hw & Hc).
    exists [], (JS.status "ignored"), rest. simpl. rewrite Hrest.
    split; [reflexivity|]. split.
    { intros call H. apply elem_of_nil in H. contradiction. }
    split; [exact Hw|]. split; [exact Hc|]. intros line payload [=].
Qed.

(** ** The node identifier *)

(** X22: the node identifier is generated once: after a first
    [_ensureNodeId], whose generated identifier (if it had to generate
    one) is not blank, a later [_ensureNodeId] finds the stored identifier,
    keeps it as the node identifier and leaves the setting alone, whatever
    it would have generated. *)
Theorem ensureNodeId_stable (this this' : Extension) (node_id uuid uuid' : string) :
  negb (String.eqb uuid "") && (0 <? String.length (String_trim uuid))%nat = true ->
  let first := _ensureNodeId this node_id uuid in
  let second := _ensureNodeId this' (snd first) uuid' in
  _nodeId (fst second) = _nodeId (fst first)
  /\ snd second = snd first.
Proof using String_trim.
  intros Huuid first second. subst second first. unfold _ensureNodeId.
  destruct (negb (String.eqb node_id "")
            && (0 <? String.length (String_trim node_id))%nat) eqn:Hid.
  - cbn [fst snd]. rewrite Hid. split; reflexivity.
  - cbn [fst snd]. rewrite Huuid. split; reflexivity.
Qed.

(** ** Timers *)

Lemma clearPolling_owned (t : Timers) :
  timers_owned t ->
  timers_owned (_clearPolling t)
  /\ _pollId (_clearPolling t) = 0%Z
  /\ _localWatchId (_clearPolling t) = _localWatchId t
  /\ (forall id seconds, sources (_clearPolling t) !! id <> Some (PollTimer seconds)).
Proof.
  intros (Hp & Hw & Hpid & Hwid). unfold _clearPolling.
  destruct (Z.eqb_spec (_pollId t) 0) as [Hz|Hnz]; unfold timers_owned; simpl.
  - split; [split; [exact Hp | split; [exact Hw | split; [exact Hpid | exact Hwid]]]|].
    split; [exact Hz|]. split; [reflexivity|].
    intros i seconds H. destruct (Hp i seconds H). congruence.
  - assert (Hnone : forall i seconds,
              delete (_pollId t) (sources t) !! i <> Some (PollTimer seconds)).
    { intros i seconds H. apply lookup_delete_Some in H as [Hne H].
      destruct (Hp i seconds H). congruence. }
    split; [split; [|split; [|split]]|].
    + intros i seconds H. destruct (Hnone i seconds H).
    + intros i H. apply lookup_delete_Some in H as [_ H]. exact (Hw i H).
    + intros H. contradiction.
    + intros H. rewrite lookup_delete_ne; [exact (Hwid H)|].
      intros E. destruct (Hpid Hnz) as (sec & Hs). rewrite E, (Hwid H) in Hs.
      discriminate.
    + split; [reflexivity|]. split; [reflexivity | exact Hnone].
Qed.

(** X23: a change of [poll-interval] never leaves two polling timers
    running: when the sources alive are those the extension holds, and
    GLib hands out an identifier that is not [0] and not in use, then after
    [_updatePolling] the sources alive are again those the extension
    holds, every polling timer alive is the one in [_pollId] with the new
    interval, and there is none when the interval is not positive. *)
Theorem updatePolling_one_timer (interval id : Z) (t : Timers) :
  timers_owned t ->
  id <> 0%Z ->
  sources (_clearPolling t) !! id = None ->
  let t' := _updatePolling interval id t in
  timers_owned t'
  /\ (forall i seconds,
        sources t' !! i = Some (PollTimer seconds) ->
        i = _pollId t' /\ seconds = interval /\ (0 < interval)%Z)
  /\ ((0 < interval)%Z -> sources t' !! _pollId t' = Some (PollTimer interval))
  /\ ((interval <= 0)%Z -> _pollId t' = 0%Z).
Proof.
  intros Hown Hid Hfresh t'. subst t'. unfold _updatePolling.
  destruct (clearPolling_owned t Hown)
    as ((Hp & Hw & Hpid & Hwid) & Hz & Hwatch & Hnone).
  destruct (Z.leb_spec interval 0) as [Hle|Hgt].
  - split; [split; [exact Hp | split; [exact Hw | split; [exact Hpid | exact Hwid]]]|].
    split; [|split].
    + intros i seconds H. destruct (Hnone i seconds H).
    + intros H. lia.
    + intros _. exact Hz.
  - unfold timers_owned. simpl. split; [split; [|split; [|split]]|split; [|split]].
    + intros i seconds H. destruct (decide (i = id)) as [->|Hne]; [auto|].
      rewrite lookup_insert_ne in H by congruence. destruct (Hnone _ _ H).
    + intros i H. destruct (decide (i = id)) as [->|Hne].
      { rewrite lookup_insert_eq in H. discriminate. }
      rewrite lookup_insert_ne in H by congruence. exact (Hw i H).
    + intros _. exists interval. apply lookup_insert_eq.
    + intros H. rewrite lookup_insert_ne; [exact (Hwid H)|].
      intros E. rewrite E, (Hwid H) in Hfresh. discriminate.
    + intros i seconds H. destruct (decide (i = id)) as [->|Hne].
      * rewrite lookup_insert_eq in H. injection H as <-. auto.
      * rewrite lookup_insert_ne in H by congruence. destruct (Hnone _ _ H).
    + intros _. apply lookup_insert_eq.
    + intros H. lia.
Qed.

(** X24: the polling watcher is started at most once, and stopping
    leaves no timer behind: [_startLocalWatch] keeps the sources alive
    those the extension holds, a second [_startLocalWatch] changes
    nothing, and after [_clearPolling] and [_stopLocalWatch], as [disable]
    runs them, no source is alive. *)
Theorem timers_started_once_and_stopped (id id' : Z) (t : Timers) :
  timers_owned t ->
  id <> 0%Z ->
  sources t !! id = None ->
  timers_owned (_startLocalWatch id t)
  /\ _startLocalWatch id' (_startLocalWatch id t) = _startLocalWatch id t
  /\ sources (_stopLocalWatch (_clearPolling (_startLocalWatch id t))) = ∅
  /\ sources (_stopLocalWatch (_clearPolling t)) = ∅.
Proof.
  intros Hown Hid Hfresh.
  assert (Hstart : timers_owned (_startLocalWatch id t)).
  { destruct Hown as (Hp & Hw & Hpid & Hwid). unfold _startLocalWatch.
    destruct (Z.eqb_spec (_localWatchId t) 0) as [Hz|Hnz];
      unfold timers_owned; simpl;
      [|split; [exact Hp | split; [exact Hw | split; [exact Hpid | exact Hwid]]]].
    split; [|split; [|split]].
    - intros i seconds H. destruct (decide (i = id)) as [->|Hne].
      { rewrite lookup_insert_eq in H. discriminate. }
      rewrite lookup_insert_ne in H by congruence. exact (Hp _ _ H).
    - intros i H. destruct (decide (i = id)) as [->|Hne]; [auto|].
      rewrite lookup_insert_ne in H by congruence. destruct (Hw _ H). congruence.
    - intros H. destruct (Hpid H) as (sec & Hs). exists sec.
      rewrite lookup_insert_ne; [exact Hs|]. intros E. rewrite <- E, Hfresh in Hs.
      discriminate.
    - intros _. apply lookup_insert_eq. }
  assert (Hstop : forall u, timers_owned u ->
            sources (_stopLocalWatch (_clearPolling u)) = ∅).
  { intros u Hu.
    destruct (clearPolling_owned u Hu)
      as ((Hp & Hw & Hpid & Hwid) & Hz & Hwatch & Hnone).
    apply map_empty. intros i. unfold _stopLocalWatch.
    destruct (Z.eqb_spec (_localWatchId (_clearPolling u)) 0) as [Hwz|Hwnz]; simpl.
    - destruct (sources (_clearPolling u) !! i) as [[sec|]|] eqn:Hs; [| |reflexivity].
      + destruct (Hnone _ _ Hs).
      + destruct (Hw _ Hs). congruence.
    - destruct (decide (i = _localWatchId (_clearPolling u))) as [->|Hne].
      { apply lookup_delete_eq. }
      rewrite lookup_delete_ne by congruence.
      destruct (sources (_clearPolling u) !! i) as [[sec|]|] eqn:Hs; [| |reflexivity].
      + destruct (Hnone _ _ Hs).
      + destruct (Hw _ Hs). congruence. }
  split; [exact Hstart|]. split; [|split; [apply Hstop, Hstart | apply Hstop, Hown]].
  unfold _startLocalWatch at 1.
  destruct (Z.eqb_spec (_localWatchId (_startLocalWatch id t)) 0) as [Hz|Hnz];
    [|reflexivity].
  exfalso. revert Hz. unfold _startLocalWatch.
  destruct (Z.eqb_spec (_localWatchId t) 0); simpl; congruence.
Qed.

(** Before any timer is started, nothing is alive. *)
Lemma no_timers_owned :
  timers_owned {| _pollId := 0; _localWatchId := 0; sources := ∅ |}.
Proof.
  unfold timers_owned. simpl. split; [|split; [|split]].
  - intros i seconds H. rewrite lookup_empty in H. discriminate.
  - intros i H. rewrite lookup_empty in H. discriminate.
  - intros H. contradiction.
  - intros H. contradiction.
Defined.

End Engine.

(** ** The scenarios, evaluated *)

Section Scenarios.

Import Example.

Local Abbreviation handle :=
  (_handlePayload St_ClipboardType StringToNumber Number_toString TypeError_message).
Local Abbreviation process :=
  (_processIncoming St_ClipboardType StringToNumber Number_toString TypeError_message
     TextDecoder_decode JSON_parse JSON_stringify).
Local Abbreviation send :=
  (_sendMessage TextDecoder_decode JSON_parse JSON_stringify Uri_parse).

(** Scenario 1: node B accepts the push of node A and stores it. *)
Example scenario_push_accepted :
  handle 1500 (node_B false "") (push "CLIPBOARD" "s")
  = (Return (JS.status "ok"), node_B_hello).
Proof. vm_compute. reflexivity. Qed.

(** Scenario 4: a push for [PRIMARY] while [sync-primary] is off. *)
Example scenario_primary_disabled :
  handle 1500 (node_B false "") (push "PRIMARY" "s")
  = (Return (JS.error "Unknown selection"), node_B false "").
Proof. vm_compute. reflexivity. Qed.

(** Scenario 1 on the wire: the line node A sends, and the line node B
    replies. *)
Example scenario_push_on_the_wire :
  process 1500 (node_B false "")
    (connection (ReadLine (Some (JSON_stringify (push "CLIPBOARD" "s")))))
  = ([ReadLineAsync;
      WriteAll (JSON_stringify (JS.status "ok") +:+ JS.newline);
      CloseOutput;
      CloseConnection],
     node_B_hello).
Proof. vm_compute. reflexivity. Qed.

(** With the numbering St declares, [PRIMARY] is the number [0], which
    [if (!selection)] takes for a missing selection: a push for [PRIMARY]
    is refused also while [sync-primary] is on. *)
Example scenario_primary_enabled :
  handle 1500 (node_B true "") (push "PRIMARY" "s")
  = (Return (JS.error "Unknown selection"), node_B true "").
Proof. vm_compute. reflexivity. Qed.

(** An update without a timestamp takes the clock's: handled again at a
    later clock reading, it is accepted again. *)
Example scenario_bare_push_twice :
  fst (handle 1600 (snd (handle 1500 (node_B false "") bare_push)) bare_push)
  = Return (JS.status "ok").
Proof. vm_compute. reflexivity. Qed.

(** An update whose timestamp is an object with a [toString] of its own:
    [Number] throws, the handler throws, and on the wire the server
    answers with the error and keeps what it had. *)
Example scenario_unconvertible_timestamp :
  handle 1500 node_B_hello odd_push
  = (Throw "can't convert value to number", node_B_hello)
  /\ process 1500 node_B_hello
       (connection (ReadLine (Some (JSON_stringify odd_push))))
     = ([ReadLineAsync;
         Log "Error reading payload: can't convert value to number";
         WriteAll (JSON_stringify (JS.error "can't convert value to number")
                   +:+ JS.newline);
         CloseOutput;
         CloseConnection],
        node_B_hello).
Proof. split; vm_compute; reflexivity. Qed.

(** A request whose type is such an object: the template literal
    throws. *)
Example scenario_unconvertible_type :
  handle 1500 node_B_hello odd_request
  = (Throw "can't convert value to string", node_B_hello).
Proof. vm_compute. reflexivity. Qed.

(** C1, witness: the pull of scenario 1 against node B. *)
Lemma pull_answers_stored_record_witness :
  handle 2000 node_B_hello (pull "CLIPBOARD")
  = (Return
       (JS.Obj [("status", JS.Str "ok");
                ("type", JS.Str "update");
                ("node", JS.Str "B");
                ("selection", JS.Str "CLIPBOARD");
                ("timestamp", JS.Num 1000);
                ("text", JS.Str "hello")]),
     node_B_hello)
  /\ handle 2000 node_B_hello (pull "PRIMARY")
     = (Return (JS.status "empty"), node_B_hello).
Proof.
  split.
  - apply (proj1 (pull_answers_stored_record St_ClipboardType StringToNumber Number_toString TypeError_message
                    2000 node_B_hello (pull "CLIPBOARD") "CLIPBOARD"
                    eq_refl eq_refl eq_refl)
             {| State.text := "hello"; State.timestamp := 1000;
                State.node := JS.Str "A" |}).
    reflexivity.
  - apply (proj2 (pull_answers_stored_record St_ClipboardType StringToNumber Number_toString TypeError_message
                    2000 node_B_hello (pull "PRIMARY") "PRIMARY"
                    eq_refl eq_refl eq_refl)).
    reflexivity.
Defined.

(** C1, counterexample: node B stores the record that node A originated,
    and answers the pull with its own identifier in [node]. *)
Lemma pull_origin_node_counterexample :
  authenticated node_B_hello (pull "CLIPBOARD")
  /\ exists state response,
       _latestState node_B_hello !! "CLIPBOARD" = Some state
       /\ fst (handle 2000 node_B_hello (pull "CLIPBOARD")) = Return response
       /\ ~ pull_returns_record response state.
Proof.
  split; [reflexivity|].
  eexists _, _. split; [reflexivity|]. split; [reflexivity|].
  intros (_ & _ & Hnode). vm_compute in Hnode. discriminate.
Qed.

(** C2: a [PRIMARY] record stored while [sync-primary] was on (the user
    selected some text) is still returned by a pull after the flag has
    been switched off. *)
Theorem pull_returns_primary_while_disabled :
  let selected :=
    _onOwnerChange 1000 (node_B true "") PRIMARY (JS.Str "selected text") in
  let this := set_settings selected (settings false "") in
  sync_primary (_settings this) = false
  /\ handle 2000 this (pull "PRIMARY")
     = (Return
          (JS.Obj [("status", JS.Str "ok");
                   ("type", JS.Str "update");
                   ("node", JS.Str "B");
                   ("selection", JS.Str "PRIMARY");
                   ("timestamp", JS.Num 1000);
                   ("text", JS.Str "selected text")]),
        this).
Proof. split; vm_compute; reflexivity. Qed.

(** C3, witness: a line of no bytes, which the parser rejects, and a
    connection that delivers no line. *)
Lemma unreadable_line_answered_witness :
  process 2000 node_B_hello (connection (ReadLine (Some "")))
  = (ReadLineAsync
       :: Log "Error reading payload: JSON.parse: unexpected character or end of data"
       :: incoming_finally JSON_stringify (connection (ReadLine (Some "")))
            (JS.error "JSON.parse: unexpected character or end of data"),
     node_B_hello)
  /\ process 2000 node_B_hello (connection (ReadLine None))
     = (ReadLineAsync
          :: incoming_finally JSON_stringify (connection (ReadLine None))
               (JS.status "ignored"),
        node_B_hello).
Proof.
  split.
  - apply (proj1 (unreadable_line_answered St_ClipboardType StringToNumber Number_toString TypeError_message
                    TextDecoder_decode JSON_parse JSON_stringify 2000 node_B_hello
                    (connection (ReadLine (Some ""))))
             "" "JSON.parse: unexpected character or end of data" eq_refl eq_refl).
  - apply (proj1 (proj2 (unreadable_line_answered St_ClipboardType StringToNumber Number_toString TypeError_message
                    TextDecoder_decode JSON_parse JSON_stringify 2000 node_B_hello
                    (connection (ReadLine None)))) eq_refl).
Defined.

(** C3, counterexample: a connection that delivers no line is answered
    [{status:"ignored"}], which is not an error reply. *)
Lemma no_line_counterexample :
  conn_read (connection (ReadLine None)) = ReadLine None
  /\ process 2000 node_B_hello (connection (ReadLine None))
     = ([ReadLineAsync;
         WriteAll (JSON_stringify (JS.status "ignored") +:+ JS.newline);
         CloseOutput;
         CloseConnection],
        node_B_hello)
  /\ forall message, JS.status "ignored" <> JS.error message.
Proof.
  split; [reflexivity|]. split; [vm_compute; reflexivity|].
  intros message. discriminate.
Qed.

(** C5, witness: the push of scenario 3, with the wrong secret, and a
    payload that is a number. *)
Lemma secret_mismatch_refused_witness :
  handle 1500 node_B_hello (push "CLIPBOARD" "wrong")
  = (Return (JS.status "unauthorized"), node_B_hello)
  /\ handle 1500 node_B_hello (JS.Num 42)
     = (Return (JS.error "Invalid payload"), node_B_hello).
Proof.
  split.
  - apply (secret_mismatch_refused St_ClipboardType StringToNumber Number_toString TypeError_message 1500
             node_B_hello (push "CLIPBOARD" "wrong")).
    + unfold authenticated. simpl. discriminate.
    + reflexivity.
  - apply (secret_mismatch_refused St_ClipboardType StringToNumber Number_toString TypeError_message 1500
             node_B_hello (JS.Num 42)).
    + unfold authenticated. simpl. discriminate.
    + reflexivity.
Defined.

(** C5, counterexample: the line [42] parses to a payload that has no
    [secret] equal to the configured one, and it is answered with an
    error, not with [{status:"unauthorized"}]. *)
Lemma non_object_payload_counterexample :
  JSON_parse "42" = Parsed (JS.Num 42)
  /\ ~ authenticated node_B_hello (JS.Num 42)
  /\ fst (handle 1500 node_B_hello (JS.Num 42)) = Return (JS.error "Invalid payload")
  /\ fst (handle 1500 node_B_hello (JS.Num 42)) <> Return (JS.status "unauthorized").
Proof.
  split; [reflexivity|].
  split; [unfold authenticated; simpl; discriminate|].
  split; [reflexivity | vm_compute; discriminate].
Qed.

(** C6, witness: scenario 2, the same push handled at two clock
    readings. *)
Lemma repeated_update_ignored_witness :
  fst (handle 1500 (node_B false "") (push "CLIPBOARD" "s")) = Return (JS.status "ok")
  /\ fst (handle 1600 (snd (handle 1500 (node_B false "") (push "CLIPBOARD" "s")))
            (push "CLIPBOARD" "s"))
     = Return (JS.status "ignored")
  /\ snd (handle 1600 (snd (handle 1500 (node_B false "") (push "CLIPBOARD" "s")))
            (push "CLIPBOARD" "s"))
     = snd (handle 1500 (node_B false "") (push "CLIPBOARD" "s")).
Proof.
  pose proof (repeated_update_ignored St_ClipboardType StringToNumber Number_toString
                TypeError_message 1500 1600
                (node_B false "") (push "CLIPBOARD" "s") CLIPBOARD 1000
                eq_refl eq_refl eq_refl eq_refl eq_refl) as (_ & H2 & H3 & _).
  split; [reflexivity|]. split; [exact H2 | exact H3].
Defined.

(** C6, counterexample: the same authenticated update, which carries no
    timestamp, handled at clock reading 1500 and again at clock reading
    1600: the second handling is answered [{status:"ok"}] too, and it
    moves the stored timestamp from 1500 to 1600. *)
Lemma repeated_bare_update_counterexample :
  authenticated (node_B false "") bare_push
  /\ JS.eq_str (dispatch_type bare_push) "update" = true
  /\ update_selection St_ClipboardType (node_B false "") bare_push = Some CLIPBOARD
  /\ (let first := handle 1500 (node_B false "") bare_push in
      let second := handle 1600 (snd first) bare_push in
      fst first = Return (JS.status "ok")
      /\ fst second = Return (JS.status "ok")
      /\ fst second <> Return (JS.status "ignored")
      /\ State.timestamp <$> (_latestState (snd first) !! "CLIPBOARD") = Some 1500%Z
      /\ State.timestamp <$> (_latestState (snd second) !! "CLIPBOARD") = Some 1600%Z).
Proof.
  split; [reflexivity|]. split; [reflexivity|]. split; [reflexivity|]. cbv zeta.
  split; [vm_compute; reflexivity|]. split; [vm_compute; reflexivity|].
  split; [vm_compute; discriminate|].
  split; vm_compute; reflexivity.
Qed.

(** C7, witness: an update without [timestamp] and [node], handled at
    clock reading 1500. *)
Lemma missing_timestamp_and_node_defaulted_witness :
  handle 1500 (node_B false "") bare_push
  = reconcile (node_B false "") CLIPBOARD 1500 (JS.Str "remote") "hello"
  /\ _latestState (snd (handle 1500 (node_B false "") bare_push)) !! "CLIPBOARD"
     = Some {| State.text := "hello"; State.timestamp := 1500;
               State.node := JS.Str "remote" |}.
Proof.
  split.
  - apply (proj2 (missing_timestamp_and_node_defaulted St_ClipboardType
                    StringToNumber Number_toString TypeError_message
                    1500 (node_B false "") bare_push CLIPBOARD
                    eq_refl eq_refl eq_refl)).
    reflexivity.
  - rewrite (proj1 (missing_timestamp_and_node_defaulted St_ClipboardType
                      StringToNumber Number_toString TypeError_message
                      1500 (node_B false "") bare_push CLIPBOARD
                      eq_refl eq_refl eq_refl) eq_refl).
    vm_compute. reflexivity.
Defined.

(** C8, witness: no endpoint, and an endpoint without a port. *)
Lemma sendMessage_endpoint_witness :
  fst (send (node_B false "") silent_peer (pull "CLIPBOARD") true) = JS.Null
  /\ exists calls,
       snd (send (node_B false "tcp://node-a") silent_peer (pull "CLIPBOARD") true)
       = Connect "node-a" 7100 :: calls.
Proof.
  split.
  - apply (proj1 (sendMessage_endpoint TextDecoder_decode JSON_parse JSON_stringify
                    Uri_parse (node_B false "") silent_peer (pull "CLIPBOARD") true)).
    apply endpoint_unset. reflexivity.
  - apply (proj2 (sendMessage_endpoint TextDecoder_decode JSON_parse JSON_stringify
                    Uri_parse (node_B false "tcp://node-a") silent_peer
                    (pull "CLIPBOARD") true)
             {| get_host := Some "node-a"; get_port := -1 |} "node-a").
    + simpl. discriminate.
    + reflexivity.
    + reflexivity.
    + discriminate.
    + reflexivity.
    + simpl. lia.
Defined.

(** C9, witness: a request without [type] is handled as an update, a
    request of type [merge] is refused, and a request whose type cannot be
    converted to a string makes the handler throw. *)
Lemma missing_type_dispatched_as_update_witness :
  handle 1500 (node_B false "") bare_push
  = reconcile (node_B false "") CLIPBOARD 1500 (JS.Str "remote") "hello"
  /\ handle 1500 (node_B false "")
       (JS.Obj [("type", JS.Str "merge"); ("secret", JS.Str "s")])
     = (Return (JS.error "Unsupported payload type: merge"), node_B false "")
  /\ handle 1500 (node_B false "") odd_request
     = (Throw "can't convert value to string", node_B false "").
Proof.
  split; [|split].
  - apply (proj1 (missing_type_dispatched_as_update St_ClipboardType StringToNumber
                    Number_toString TypeError_message
                    1500 (node_B false "") bare_push eq_refl)).
    reflexivity.
  - apply (proj1 (proj2 (missing_type_dispatched_as_update St_ClipboardType
                    StringToNumber Number_toString TypeError_message
                    1500 (node_B false "")
                    (JS.Obj [("type", JS.Str "merge"); ("secret", JS.Str "s")])
                    eq_refl))).
    + reflexivity.
    + discriminate.
    + discriminate.
  - apply (proj1 (proj2 (missing_type_dispatched_as_update St_ClipboardType
                    StringToNumber Number_toString TypeError_message
                    1500 (node_B false "") odd_request eq_refl))).
    + reflexivity.
    + discriminate.
    + discriminate.
Defined.

(** C10, witness: node B, holding the record of timestamp 1000, accepts
    an update of timestamp 2000. *)
Lemma accepted_update_timestamp_monotone_witness :
  exists new,
    _latestState (snd (handle 2500 node_B_hello later_push)) !! "CLIPBOARD" = Some new
    /\ (1000 <= State.timestamp new)%Z.
Proof.
  apply (accepted_update_timestamp_monotone St_ClipboardType StringToNumber Number_toString TypeError_message 2500
           node_B_hello (snd (handle 2500 node_B_hello later_push)) later_push
           "CLIPBOARD"
           {| State.text := "hello"; State.timestamp := 1000;
              State.node := JS.Str "A" |}).
  - vm_compute. reflexivity.
  - reflexivity.
Defined.

(** ** The further properties, evaluated *)

(** X1, witness: the name of [CLIPBOARD], and [PRIMARY] while
    [sync-primary] is off. *)
Lemma selection_names_round_trip_witness :
  JS.Str "CLIPBOARD" = JS.Str (_selectionKey CLIPBOARD)
  /\ _selectionFromKey (node_B false "") (JS.Str (_selectionKey PRIMARY)) = None.
Proof.
  split.
  - apply (proj1 (selection_names_round_trip (node_B false ""))
             (JS.Str "CLIPBOARD") CLIPBOARD).
    reflexivity.
  - exact (proj2 (selection_names_round_trip (node_B false "")) PRIMARY).
Defined.

(** X2, witness: an update without a selection. *)
Lemma unknown_selection_refused_witness :
  handle 1500 node_B_hello push_nowhere
  = (Return (JS.error "Unknown selection"), node_B_hello).
Proof.
  apply (unknown_selection_refused St_ClipboardType StringToNumber Number_toString TypeError_message 1500
           node_B_hello push_nowhere eq_refl eq_refl); discriminate.
Defined.

(** X3, witness: a push for [CLIPBOARD] leaves the [PRIMARY] record. *)
Lemma handlePayload_frame_witness :
  _latestState (snd (handle 2500 node_B_hello later_push)) !! "PRIMARY"
  = _latestState node_B_hello !! "PRIMARY".
Proof.
  apply (proj1 (proj2 (proj2 (handlePayload_frame St_ClipboardType StringToNumber Number_toString TypeError_message
                                 2500 node_B_hello later_push)))).
  discriminate.
Defined.

(** X4, witness: an accepted push, a refused one and one that makes the
    handler throw. *)
Lemma clipboard_written_iff_ok_witness :
  (exists selection timestamp,
     update_selection St_ClipboardType node_B_hello later_push = Some selection
     /\ update_timestamp StringToNumber Number_toString 2500 later_push
        = Some timestamp
     /\ _clipboard (snd (handle 2500 node_B_hello later_push))
        = (selection, "world") :: _clipboard node_B_hello
     /\ _selectionKey selection
        ∈ _suppressedSelections (snd (handle 2500 node_B_hello later_push))
     /\ _latestState (snd (handle 2500 node_B_hello later_push))
          !! _selectionKey selection
        = Some {| State.text := "world"; State.timestamp := timestamp;
                  State.node := JS.Str "A" |})
  /\ snd (handle 2500 node_B_hello (push "CLIPBOARD" "wrong")) = node_B_hello
  /\ snd (handle 2500 node_B_hello odd_push) = node_B_hello.
Proof.
  split; [|split].
  - apply (proj1 (clipboard_written_iff_ok St_ClipboardType StringToNumber
                    Number_toString TypeError_message 2500
                    node_B_hello later_push)).
    reflexivity.
  - apply (proj2 (clipboard_written_iff_ok St_ClipboardType StringToNumber
                    Number_toString TypeError_message 2500
                    node_B_hello (push "CLIPBOARD" "wrong"))).
    vm_compute. discriminate.
  - apply (proj2 (clipboard_written_iff_ok St_ClipboardType StringToNumber
                    Number_toString TypeError_message 2500
                    node_B_hello odd_push)).
    vm_compute. discriminate.
Defined.

(** X5, witness: the push of scenario 1 on the empty node B. *)
Lemma first_update_accepted_witness :
  fst (handle 1500 (node_B false "") (push "CLIPBOARD" "s")) = Return (JS.status "ok")
  /\ _latestState (snd (handle 1500 (node_B false "") (push "CLIPBOARD" "s")))
       !! "CLIPBOARD"
     = Some {| State.text := "hello"; State.timestamp := 1000;
               State.node := JS.Str "A" |}.
Proof.
  apply (first_update_accepted St_ClipboardType StringToNumber Number_toString
           TypeError_message 1500
           (node_B false "") (push "CLIPBOARD" "s") CLIPBOARD 1000
           eq_refl eq_refl eq_refl eq_refl eq_refl).
  discriminate.
Defined.

(** X6, witness: scenario 1, the push and then the pull. *)
Lemma accepted_update_then_pull_witness :
  exists timestamp,
    update_timestamp StringToNumber Number_toString 1500 (push "CLIPBOARD" "s")
    = Some timestamp
    /\ handle 2000 node_B_hello (pull "CLIPBOARD")
       = (Return
            (JS.Obj [("status", JS.Str "ok");
                     ("type", JS.Str "update");
                     ("node", JS.Str "B");
                     ("selection", JS.Str "CLIPBOARD");
                     ("timestamp", JS.Num timestamp);
                     ("text", JS.Str "hello")]),
          node_B_hello).
Proof.
  apply (accepted_update_then_pull St_ClipboardType StringToNumber Number_toString
           TypeError_message 1500 2000
           (node_B false "") node_B_hello (push "CLIPBOARD" "s") (pull "CLIPBOARD")).
  - vm_compute. reflexivity.
  - reflexivity.
  - reflexivity.
  - reflexivity.
Defined.

(** X7, witness: the update of timestamp 2000, then the push of timestamp
    1000. *)
Lemma stale_update_ignored_witness :
  handle 2600 (snd (handle 2500 (node_B false "") later_push)) (push "CLIPBOARD" "s")
  = (Return (JS.status "ignored"), snd (handle 2500 (node_B false "") later_push)).
Proof.
  apply (stale_update_ignored St_ClipboardType StringToNumber Number_toString
           TypeError_message 2500 2600
           (node_B false "") (snd (handle 2500 (node_B false "") later_push))
           later_push (push "CLIPBOARD" "s") CLIPBOARD 2000 1000).
  - vm_compute. reflexivity.
  - reflexivity.
  - reflexivity.
  - reflexivity.
  - reflexivity.
  - reflexivity.
  - reflexivity.
  - lia.
Defined.

(** X8, witness: a pull, the update of timestamp 2000, the push of
    timestamp 1000. *)
Lemma serve_at_least_as_new_witness :
  exists r,
    _latestState
      (serve St_ClipboardType StringToNumber Number_toString TypeError_message
         (node_B false "")
         ([(1500%Z, pull "CLIPBOARD")] ++ (2500%Z, later_push)
            :: [(2600%Z, push "CLIPBOARD" "s")]))
      !! "CLIPBOARD" = Some r
    /\ (2000 <= State.timestamp r)%Z.
Proof.
  apply (serve_at_least_as_new St_ClipboardType StringToNumber Number_toString
           TypeError_message
           [(1500%Z, pull "CLIPBOARD")] [(2600%Z, push "CLIPBOARD" "s")] 2500
           (node_B false "") later_push CLIPBOARD 2000 eq_refl eq_refl eq_refl eq_refl).
  discriminate.
Defined.

(** X9, witness: the pushes of timestamps 1000 and 2000 in both orders. *)
Lemma distinct_timestamps_commute_witness :
  _latestState (serve St_ClipboardType StringToNumber Number_toString TypeError_message (node_B false "")
                  [(1500%Z, push "CLIPBOARD" "s"); (2500%Z, later_push)])
  = _latestState (serve St_ClipboardType StringToNumber Number_toString TypeError_message (node_B false "")
                    [(2500%Z, later_push); (1500%Z, push "CLIPBOARD" "s")]).
Proof.
  apply (distinct_timestamps_commute St_ClipboardType StringToNumber Number_toString TypeError_message 1500 2500
           (node_B false "") (push "CLIPBOARD" "s") later_push CLIPBOARD CLIPBOARD
           eq_refl eq_refl eq_refl eq_refl eq_refl eq_refl).
  right. vm_compute. discriminate.
Defined.

(** X10, witness: two pushes of timestamp 1000 with the texts [hello] and
    [world]. *)
Lemma equal_timestamps_last_arrival_wins_witness :
  State.text <$> (_latestState
                    (serve St_ClipboardType StringToNumber Number_toString TypeError_message (node_B false "")
                       [(1500%Z, push "CLIPBOARD" "s"); (1600%Z, rival_push)])
                    !! "CLIPBOARD") = Some "world"
  /\ State.text <$> (_latestState
                       (serve St_ClipboardType StringToNumber Number_toString TypeError_message (node_B false "")
                          [(1600%Z, rival_push); (1500%Z, push "CLIPBOARD" "s")])
                       !! "CLIPBOARD") = Some "hello".
Proof.
  apply (equal_timestamps_last_arrival_wins St_ClipboardType StringToNumber Number_toString TypeError_message
           1500 1600 (node_B false "") (push "CLIPBOARD" "s") rival_push CLIPBOARD
           1000 eq_refl eq_refl eq_refl eq_refl eq_refl eq_refl).
  - discriminate.
  - discriminate.
  - reflexivity.
  - reflexivity.
  - discriminate.
  - intros cur H. vm_compute in H. discriminate.
Defined.

(** X11, witness: node A publishes [copied] at clock reading 3000, node B
    receives it. *)
Lemma published_update_accepted_by_peer_witness :
  fst (handle 3100 node_B_hello (fst (_publishClipboard 3000 node_A CLIPBOARD "copied")))
  = Return (JS.status "ok")
  /\ _latestState
       (snd (handle 3100 node_B_hello
               (fst (_publishClipboard 3000 node_A CLIPBOARD "copied"))))
       !! "CLIPBOARD"
     = Some {| State.text := "copied"; State.timestamp := 3000;
               State.node := JS.Str "A" |}
  /\ _clipboard
       (snd (handle 3100 node_B_hello
               (fst (_publishClipboard 3000 node_A CLIPBOARD "copied"))))
     = (CLIPBOARD, "copied") :: _clipboard node_B_hello.
Proof.
  apply (published_update_accepted_by_peer St_ClipboardType StringToNumber Number_toString TypeError_message
           3000 3100 node_A node_B_hello CLIPBOARD "copied").
  - discriminate.
  - discriminate.
  - discriminate.
  - reflexivity.
  - discriminate.
  - discriminate.
  - intros cur H. vm_compute in H. injection H as <-. simpl. lia.
Defined.

(** X12, witness: node A receives its own publication. *)
Lemma own_publication_not_applied_witness :
  fst (handle 3100 (snd (_publishClipboard 3000 node_A CLIPBOARD "copied"))
         (fst (_publishClipboard 3000 node_A CLIPBOARD "copied")))
  <> Return (JS.status "ok")
  /\ snd (handle 3100 (snd (_publishClipboard 3000 node_A CLIPBOARD "copied"))
            (fst (_publishClipboard 3000 node_A CLIPBOARD "copied")))
     = snd (_publishClipboard 3000 node_A CLIPBOARD "copied").
Proof.
  apply (own_publication_not_applied St_ClipboardType StringToNumber Number_toString TypeError_message 3000 3100
           node_A CLIPBOARD "copied").
  discriminate.
Defined.

(** X13, witness: node B after the push of scenario 1, then the
    notification that its own [set_text] causes. *)
Lemma accepted_update_not_republished_witness :
  onOwnerChange_signal clock node_B_hello ∅ (Some CLIPBOARD) clipboard_content
  = ([], delete_suppressed node_B_hello "CLIPBOARD", ∅)
  /\ checkLocalClipboard_callback 3000 node_B_hello ∅ CLIPBOARD (JS.Str "hello")
     = (None, delete_suppressed node_B_hello "CLIPBOARD", {[ "CLIPBOARD" := "hello" ]}).
Proof.
  pose proof (accepted_update_not_republished St_ClipboardType StringToNumber Number_toString TypeError_message 1500
                (node_B false "") node_B_hello (push "CLIPBOARD" "s") CLIPBOARD
                clock ∅ clipboard_content) as H.
  destruct H as [[H1 _] H2].
  - vm_compute. reflexivity.
  - reflexivity.
  - split; [exact H1 | exact (H2 "hello")].
Defined.

(** X14, witness: a notification without a selection on a node whose
    [sync-primary] is off. *)
Lemma primary_not_published_when_disabled_witness :
  _latestState
    (snd (fst (onOwnerChange_signal clock node_A ∅ None clipboard_content)))
    !! "PRIMARY"
  = _latestState node_A !! "PRIMARY".
Proof.
  apply (proj2 (primary_not_published_when_disabled clock node_A ∅ None
                  clipboard_content eq_refl)).
Defined.

(** X16, witness: node A polls node B, which has nothing stored. *)
Lemma poll_without_record_changes_nothing_witness :
  pollRemote_resume St_ClipboardType node_A
    (answer (fst (handle 3100 (node_B false "") (pollRemote_payload 3000 node_A))))
  = Resumed_with node_A.
Proof.
  apply (poll_without_record_changes_nothing St_ClipboardType StringToNumber Number_toString TypeError_message
           3000 3100 node_A (node_B false "")).
  right. reflexivity.
Defined.


(** X18, witness: node A publishes, node B accepts, node A polls. *)
Lemma published_text_not_pulled_back_witness :
  pollRemote_resume St_ClipboardType
    (snd (_publishClipboard 3000 node_A CLIPBOARD "copied"))
    (answer
       (fst (handle 3300
               (snd (handle 3100 node_B_hello
                       (fst (_publishClipboard 3000 node_A CLIPBOARD "copied"))))
               (pollRemote_payload 3200
                  (snd (_publishClipboard 3000 node_A CLIPBOARD "copied"))))))
  = Resumed_with (snd (_publishClipboard 3000 node_A CLIPBOARD "copied")).
Proof.
  apply (published_text_not_pulled_back St_ClipboardType StringToNumber Number_toString TypeError_message
           3000 3100 3200 3300 node_A node_B_hello
           (snd (handle 3100 node_B_hello
                   (fst (_publishClipboard 3000 node_A CLIPBOARD "copied"))))
           "copied").
  - discriminate.
  - reflexivity.
  - vm_compute. reflexivity.
Defined.

(** X19, witness: a pull that the peer answers with [{status:"empty"}]. *)
Lemma sendMessage_result_witness :
  JSON_parse (TextDecoder_decode (JSON_stringify (JS.status "empty")))
  = Parsed
      (fst (send node_A (answering_peer (JSON_stringify (JS.status "empty")))
              (pollRemote_payload 3000 node_A) true)).
Proof.
  destruct (sendMessage_result TextDecoder_decode JSON_parse JSON_stringify
              Uri_parse node_A (answering_peer (JSON_stringify (JS.status "empty")))
              (pollRemote_payload 3000 node_A) true)
    as (_ & _ & _ & _ & _ & line & Hline & Hparse).
  - vm_compute. discriminate.
  - injection Hline as <-. exact Hparse.
Defined.

(** X20, witness: node A connects to node B on the URI's port 7100. *)
Lemma sendMessage_destination_witness :
  exists uri,
    Uri_parse (peer_endpoint (_settings node_A)) = Some uri
    /\ get_host uri = Some "node-b"
    /\ "node-b" <> ""
    /\ 7100%Z = destination_port node_A uri
    /\ (0 < 7100 <= 65535)%Z.
Proof.
  apply (proj1 (sendMessage_destination TextDecoder_decode JSON_parse JSON_stringify
                  Uri_parse node_A silent_peer (pollRemote_payload 3000 node_A) true)
           "node-b" 7100%Z).
  vm_compute. apply list_elem_of_here.
Defined.

(** X22, witness: a node without a stored identifier generates one, and
    keeps it the next time. *)
Lemma ensureNodeId_stable_witness :
  _nodeId (fst (_ensureNodeId String_trim node_A
                  (snd (_ensureNodeId String_trim node_A "  " "3f2a")) "77c1"))
  = _nodeId (fst (_ensureNodeId String_trim node_A "  " "3f2a"))
  /\ snd (_ensureNodeId String_trim node_A
            (snd (_ensureNodeId String_trim node_A "  " "3f2a")) "77c1")
     = snd (_ensureNodeId String_trim node_A "  " "3f2a").
Proof.
  apply (ensureNodeId_stable String_trim node_A node_A "  " "3f2a" "77c1").
  reflexivity.
Defined.

(** X23, witness: with no timer running, [poll-interval] is set to 30
    seconds and GLib hands out the identifier 17. *)
Lemma updatePolling_one_timer_witness :
  sources (_updatePolling 30 17 {| _pollId := 0; _localWatchId := 0; sources := ∅ |})
    !! _pollId (_updatePolling 30 17
                  {| _pollId := 0; _localWatchId := 0; sources := ∅ |})
  = Some (PollTimer 30).
Proof.
  apply (proj1 (proj2 (proj2 (updatePolling_one_timer 30 17
                                 {| _pollId := 0; _localWatchId := 0; sources := ∅ |}
                                 no_timers_owned ltac:(discriminate) eq_refl)))).
  reflexivity.
Defined.

(** X24, witness: the polling watcher started with the identifier 17, and
    everything stopped again. *)
Lemma timers_started_once_and_stopped_witness :
  sources (_stopLocalWatch
             (_clearPolling
                (_startLocalWatch 17
                   {| _pollId := 0; _localWatchId := 0; sources := ∅ |})))
  = ∅.
Proof.
  apply (proj1 (proj2 (proj2 (timers_started_once_and_stopped 17 18
                                 {| _pollId := 0; _localWatchId := 0; sources := ∅ |}
                                 no_timers_owned ltac:(discriminate) eq_refl)))).
Defined.

End Scenarios.
